(** * The VLA inference model layer: lifecycle, factory and trajectory generators

    A shallow embedding of [vla-inference/models]:
    - [base.py]      the data classes and the [VLAModel] contract,
    - [pi0.py]       the smooth continuous-motion stub,
    - [openvla.py]   the target-tracking stub,
    - [groot.py]     the always-unavailable stub,
    - [__init__.py]  the factory [create_model].

    Modelling conventions.
    - A Python [float] is a rational number ([Q]) with exact arithmetic; an
      [int] is a [Z].  [max]/[min] are [Qmax]/[Qmin], which pick the same
      argument as Python's on every pair of rationals.  Rounding is not
      modelled: a bound that a sum of floats could miss by a rounding error
      at its very end is stated with a margin.
    - [math.sin] is a variable of the development, constrained only by
      [-1 <= sin x <= 1].
    - [random.uniform], [time.sleep] and [time.perf_counter] act on an
      explicit [World]: a stream of 53-bit generator outputs with a cursor,
      and a clock.
    - A method of a class is a computation in [M state]: it receives the
      instance fields and the world and returns a value or a raised
      exception together with the updated fields and world.
    - Strings are ASCII strings; [str.lower] maps [A-Z] to [a-z].
    - Logging is not modelled. *)

From Stdlib Require Import List String Ascii ZArith QArith Qminmax Qabs Lia Lqa Bool.
From Stdlib Require Decimal DecimalString DecimalZ DecimalPos.
From ExtLib Require Import Structures.Monad.
Import ListNotations.
Import MonadNotation.
Local Open Scope monad_scope.
Local Open Scope string_scope.
Local Open Scope Q_scope.

(** ** Python built-ins used by the source *)

Module Py.

(** [str.lower] on ASCII text. *)
Definition lower_ascii (c : ascii) : ascii :=
  let n := nat_of_ascii c in
  if ((65 <=? n) && (n <=? 90))%nat then ascii_of_nat (n + 32) else c.

Fixpoint lower (s : string) : string :=
  match s with
  | EmptyString => EmptyString
  | String c s' => String (lower_ascii c) (lower s')
  end.

(** [needle in hay] on strings. *)
Fixpoint str_in (needle hay : string) : bool :=
  String.prefix needle hay ||
  match hay with
  | EmptyString => false
  | String _ hay' => str_in needle hay'
  end.

(** [x in xs] on a list of strings. *)
Definition list_in (x : string) (xs : list string) : bool :=
  existsb (String.eqb x) xs.

(** [", ".join(xs)]. *)
Definition join (sep : string) (xs : list string) : string :=
  String.concat sep xs.

(** [set(xs)] keeps one copy of each element; [sorted] orders strings by
    code point.  [sorted(set(xs))] does not depend on the iteration order
    of the set. *)
Fixpoint dedup (xs : list string) : list string :=
  match xs with
  | [] => []
  | x :: xs' => if list_in x xs' then dedup xs' else x :: dedup xs'
  end.

Fixpoint insert_sorted (x : string) (xs : list string) : list string :=
  match xs with
  | [] => [x]
  | y :: ys => if String.leb x y then x :: y :: ys else y :: insert_sorted x ys
  end.

Definition sorted (xs : list string) : list string :=
  fold_right insert_sorted [] xs.

(** [max(lo, min(hi, x))]. *)
Definition clamp (lo hi x : Q) : Q := Qmax lo (Qmin hi x).

(** The line feed of a ["\n"] escape. *)
Definition nl : string := String (ascii_of_nat 10) EmptyString.

(** *** Exceptions

    The classes the source raises, with the part of the built-in hierarchy
    they sit in: [GR00TNotAvailableError] derives from
    [NotImplementedError] (groot.py), which derives from [RuntimeError].
    [KeyboardInterrupt] and [SystemExit] stand for what a wrapped statement
    can raise outside [Exception]: they derive from [BaseException] only,
    so an [except Exception] clause lets them pass. *)
Inductive ExcClass : Type :=
| Exception
| ValueError
| RuntimeError
| NotImplementedError
| GR00TNotAvailableError
| BaseException
| KeyboardInterrupt
| SystemExit.

Definition base_class (c : ExcClass) : option ExcClass :=
  match c with
  | BaseException => None
  | KeyboardInterrupt => Some BaseException
  | SystemExit => Some BaseException
  | Exception => Some BaseException
  | ValueError => Some Exception
  | RuntimeError => Some Exception
  | NotImplementedError => Some RuntimeError
  | GR00TNotAvailableError => Some NotImplementedError
  end.

Definition ExcClass_eqb (c d : ExcClass) : bool :=
  match c, d with
  | Exception, Exception
  | ValueError, ValueError
  | RuntimeError, RuntimeError
  | NotImplementedError, NotImplementedError
  | GR00TNotAvailableError, GR00TNotAvailableError
  | BaseException, BaseException
  | KeyboardInterrupt, KeyboardInterrupt
  | SystemExit, SystemExit => true
  | _, _ => false
  end.

Fixpoint issubclass_upto (depth : nat) (c d : ExcClass) : bool :=
  ExcClass_eqb c d ||
  match depth, base_class c with
  | S depth', Some b => issubclass_upto depth' b d
  | _, _ => false
  end.

Definition issubclass : ExcClass -> ExcClass -> bool := issubclass_upto 4.

Record exn : Type := mk_exn { exc_class : ExcClass; exc_message : string }.

Definition isinstance (e : exn) (c : ExcClass) : bool :=
  issubclass (exc_class e) c.

End Py.

(** ** The world: pseudo-random source and clock *)

Record World : Type := mk_World {
  rng_out : nat -> Z;   (* successive outputs of the generator *)
  rng_pos : nat;        (* how many have been consumed *)
  clock : Q             (* seconds, as read by [time.perf_counter] *)
}.

(** *** Computations that only touch the world *)

Definition Rand (A : Type) : Type := World -> A * World.

#[global] Instance Monad_Rand : Monad Rand := {|
  ret := fun A (a : A) w => (a, w);
  bind := fun A B (m : Rand A) (k : A -> Rand B) w =>
            let (a, w') := m w in k a w'
|}.

(** [random.random()]: a 53-bit integer scaled into [[0, 1)]. *)
Definition random : Rand Q := fun w =>
  ((rng_out w (rng_pos w) mod 2 ^ 53)%Z # (2 ^ 53),
   {| rng_out := rng_out w; rng_pos := S (rng_pos w); clock := clock w |}).

(** [random.uniform(a, b)] is [a + (b - a) * random()]. *)
Definition uniform (a b : Q) : Rand Q :=
  u <- random ;; ret (a + (b - a) * u).

Definition sleep (seconds : Q) : Rand unit := fun w =>
  (tt, {| rng_out := rng_out w; rng_pos := rng_pos w;
          clock := clock w + seconds |}).

Definition perf_counter : Rand Q := fun w => (clock w, w).

(** *** Methods: instance fields, world and exceptions *)

Inductive Res (A : Type) : Type :=
| Ok (a : A)
| Raise (e : Py.exn).
Arguments Ok {A} a.
Arguments Raise {A} e.

Definition M (S A : Type) : Type := S -> World -> Res A * S * World.

#[global] Instance Monad_M (S : Type) : Monad (M S) := {|
  ret := fun A (a : A) s w => (Ok a, s, w);
  bind := fun A B (m : M S A) (k : A -> M S B) s w =>
            match m s w with
            | (Ok a, s', w') => k a s' w'
            | (Raise e, s', w') => (Raise e, s', w')
            end
|}.

Definition raise {S A : Type} (e : Py.exn) : M S A := fun s w => (Raise e, s, w).
Definition get_self {S : Type} : M S S := fun s w => (Ok s, s, w).
Definition set_self {S : Type} (s : S) : M S unit := fun _ w => (Ok tt, s, w).
Definition lift {S A : Type} (r : Rand A) : M S A := fun s w =>
  let (a, w') := r w in (Ok a, s, w').

(** ** base.py: data classes *)

Record ModelInfo : Type := mk_ModelInfo {
  model_name : string;
  model_version : string;
  action_dim : Z;
  info_chunk_size : Z;
  supported_embodiments : list string;
  image_width : Z;
  image_height : Z;
  base_model : string
}.

Record Observation : Type := mk_Observation {
  camera_image : string;
  joint_positions : list Q;
  joint_velocities : list Q;
  language_instruction : string;
  timestamp : Q;
  embodiment_tag : string;
  session_id : option string
}.

Record Action : Type := mk_Action {
  joint_commands : list Q;
  gripper_command : Q;
  action_timestamp : Q
}.

Record ActionChunk : Type := mk_ActionChunk {
  actions : list Action;
  inference_time_ms : Q;
  chunk_model_version : string;
  confidence : Q;
  sequence_number : Z
}.

(** [VLAModel._check_loaded], for the class named [class_name]. *)
Definition _check_loaded {S : Type} (is_loaded : S -> bool) (class_name : string)
  : M S unit :=
  self <- get_self ;;
  if negb (is_loaded self)
  then raise (Py.mk_exn Py.RuntimeError
                (class_name ++ " model not loaded. " ++ "Call load() before predict()."))
  else ret tt.

(** The starting point both stubs take from the observation when they hold
    no earlier output (pi0.py and openvla.py, same text):
    [[max(-1, min(1, pos)) for pos in joint_positions[:6]]], extended with
    zeros up to six entries. *)
Definition initial_joints (observation : Observation) : list Q :=
  let current := map (Py.clamp (-1) 1) (firstn 6 (joint_positions observation)) in
  if (List.length current <? 6)%nat
  then (current ++ repeat 0.0 (6 - List.length current))%list
  else current.

(** A rational stand-in for [math.sin], used to run the model on concrete
    inputs: the degree-5 Taylor polynomial, cut off at [-1] and [1]. *)
Definition sin_approx (x : Q) : Q :=
  Py.clamp (-1) 1 (x - x * x * x / 6 + x * x * x * x * x / 120).

(** ** pi0.py: the smooth continuous-motion stub *)

Module Pi0Model.

Definition MODEL_NAME : string := "pi0-stub".
Definition MODEL_VERSION : string := "0.6.0-stub".
Definition BASE_MODEL : string := "pi0".
Definition ACTION_DIM : Z := 7.
Definition CHUNK_SIZE : nat := 16.
Definition IMAGE_WIDTH : Z := 224.
Definition IMAGE_HEIGHT : Z := 224.
Definition SUPPORTED_EMBODIMENTS : list string :=
  ["unitree_h1"; "so101_arm"; "franka_panda"; "aloha"].
Definition MIN_LATENCY_MS : Q := 20.
Definition MAX_LATENCY_MS : Q := 50.

Record state : Type := mk_state {
  _loaded : bool;
  _device : string;
  _checkpoint_path : option string;
  _sequence_counter : Z;
  _last_action : option (list Q)
}.

(** [__init__] *)
Definition init : state :=
  {| _loaded := false; _device := "cpu"; _checkpoint_path := None;
     _sequence_counter := 0; _last_action := None |}.

Definition load (checkpoint_path : option string) (device : string) : M state unit :=
  self <- get_self ;;
  if _loaded self then ret tt
  else
    lift (sleep 0.1) ;;
    set_self {| _checkpoint_path := checkpoint_path;
                _device := device;
                _loaded := true;
                _sequence_counter := 0;
                _last_action := None |}.

Definition unload : M state unit :=
  self <- get_self ;;
  if negb (_loaded self) then ret tt
  else
    set_self {| _loaded := false;
                _sequence_counter := 0;
                _last_action := None;
                _device := _device self;
                _checkpoint_path := _checkpoint_path self |}.

Definition model_info : ModelInfo :=
  {| model_name := MODEL_NAME;
     model_version := MODEL_VERSION;
     action_dim := ACTION_DIM;
     info_chunk_size := Z.of_nat CHUNK_SIZE;
     supported_embodiments := SUPPORTED_EMBODIMENTS;
     image_width := IMAGE_WIDTH;
     image_height := IMAGE_HEIGHT;
     base_model := BASE_MODEL |}.

Definition chunk_size : Z := Z.of_nat CHUNK_SIZE.

Definition _calculate_confidence (observation : Observation) : Rand Q :=
  let base_confidence :=
    if Py.list_in (embodiment_tag observation) SUPPORTED_EMBODIMENTS
    then 0.9 else 0.6 in
  noise <- uniform (-0.05) 0.05 ;;
  ret (Py.clamp 0.5 1.0 (base_confidence + noise)).

Section WithSin.

Variable sin : Q -> Q.

(** The inner loop [for j, curr_pos in enumerate(current)]: returns
    [joint_commands]; [current[j] = new_pos] makes [current] equal to it. *)
Fixpoint joints_loop (phase : Q) (j : nat) (current : list Q) : list Q :=
  match current with
  | [] => []
  | curr_pos :: rest =>
      let delta := 0.02 * sin (phase + inject_Z (Z.of_nat j) * 0.5) in
      let new_pos := curr_pos + delta in
      let new_pos := Py.clamp (-1) 1 new_pos in
      new_pos :: joints_loop phase (S j) rest
  end.

(** The outer loop [for i in range(CHUNK_SIZE)], over the indices still to
    visit: returns the actions and the final [current]. *)
Fixpoint steps_loop (sequence_counter : Z) (base_time dt : Q)
    (indices : list nat) (current : list Q) : list Action * list Q :=
  match indices with
  | [] => ([], current)
  | i :: later =>
      let phase := inject_Z (sequence_counter * Z.of_nat CHUNK_SIZE + Z.of_nat i) * 0.1 in
      let joint_commands := joints_loop phase 0 current in
      let current := joint_commands in
      let gripper := 0.5 + 0.3 * sin (phase * 0.3) in
      let gripper := Py.clamp 0 1 gripper in
      let action := {| joint_commands := joint_commands;
                       gripper_command := gripper;
                       action_timestamp := base_time + inject_Z (Z.of_nat i + 1) * dt |} in
      let (acts, final) := steps_loop sequence_counter base_time dt later current in
      (action :: acts, final)
  end.

Definition _generate_smooth_actions (observation : Observation) : M state (list Action) :=
  self <- get_self ;;
  let base_time := timestamp observation in
  let dt := 0.02 in
  let current :=
    match _last_action self with
    | Some last => last
    | None => initial_joints observation
    end in
  let (acts, current) :=
    steps_loop (_sequence_counter self) base_time dt (seq 0 CHUNK_SIZE) current in
  set_self {| _last_action := Some current;
              _loaded := _loaded self;
              _device := _device self;
              _checkpoint_path := _checkpoint_path self;
              _sequence_counter := _sequence_counter self |} ;;
  ret acts.

Definition predict (observation : Observation) : M state ActionChunk :=
  _check_loaded _loaded "Pi0Model" ;;
  start_time <- lift perf_counter ;;
  latency_ms <- lift (uniform MIN_LATENCY_MS MAX_LATENCY_MS) ;;
  lift (sleep (latency_ms / 1000.0)) ;;
  acts <- _generate_smooth_actions observation ;;
  end_time <- lift perf_counter ;;
  let inference_time_ms := (end_time - start_time) * 1000 in
  self <- get_self ;;
  set_self {| _sequence_counter := _sequence_counter self + 1;
              _loaded := _loaded self;
              _device := _device self;
              _checkpoint_path := _checkpoint_path self;
              _last_action := _last_action self |} ;;
  conf <- lift (_calculate_confidence observation) ;;
  self <- get_self ;;
  ret {| actions := acts;
         inference_time_ms := inference_time_ms;
         chunk_model_version := MODEL_VERSION;
         confidence := conf;
         sequence_number := _sequence_counter self |}.

(** [for obs in observations: results.append(self.predict(obs))] *)
Fixpoint predict_each (observations : list Observation) : M state (list ActionChunk) :=
  match observations with
  | [] => ret []
  | obs :: rest =>
      chunk <- predict obs ;;
      chunks <- predict_each rest ;;
      ret (chunk :: chunks)
  end.

Definition predict_batch (observations : list Observation) : M state (list ActionChunk) :=
  _check_loaded _loaded "Pi0Model" ;;
  predict_each observations.

End WithSin.

End Pi0Model.

(** ** openvla.py: the target-tracking stub *)

Module OpenVLAModel.

Definition MODEL_NAME : string := "openvla-stub".
Definition MODEL_VERSION : string := "7b-stub".
Definition BASE_MODEL : string := "openvla".
Definition ACTION_DIM : Z := 7.
Definition CHUNK_SIZE : nat := 8.
Definition IMAGE_WIDTH : Z := 336.
Definition IMAGE_HEIGHT : Z := 336.
Definition SUPPORTED_EMBODIMENTS : list string :=
  ["franka_panda"; "kuka_iiwa"; "ur5"; "widowx"; "google_robot"].
Definition MIN_LATENCY_MS : Q := 30.
Definition MAX_LATENCY_MS : Q := 70.

Record state : Type := mk_state {
  _loaded : bool;
  _device : string;
  _checkpoint_path : option string;
  _sequence_counter : Z;
  _action_history : list (list Q)
}.

(** [__init__] *)
Definition init : state :=
  {| _loaded := false; _device := "cpu"; _checkpoint_path := None;
     _sequence_counter := 0; _action_history := [] |}.

Definition load (checkpoint_path : option string) (device : string) : M state unit :=
  self <- get_self ;;
  if _loaded self then ret tt
  else
    lift (sleep 0.15) ;;
    set_self {| _checkpoint_path := checkpoint_path;
                _device := device;
                _loaded := true;
                _sequence_counter := 0;
                _action_history := [] |}.

Definition unload : M state unit :=
  self <- get_self ;;
  if negb (_loaded self) then ret tt
  else
    set_self {| _loaded := false;
                _sequence_counter := 0;
                _action_history := [];
                _device := _device self;
                _checkpoint_path := _checkpoint_path self |}.

Definition model_info : ModelInfo :=
  {| model_name := MODEL_NAME;
     model_version := MODEL_VERSION;
     action_dim := ACTION_DIM;
     info_chunk_size := Z.of_nat CHUNK_SIZE;
     supported_embodiments := SUPPORTED_EMBODIMENTS;
     image_width := IMAGE_WIDTH;
     image_height := IMAGE_HEIGHT;
     base_model := BASE_MODEL |}.

Definition chunk_size : Z := Z.of_nat CHUNK_SIZE.

(** [[b + random.uniform(-0.1, 0.1) for b in base]] *)
Fixpoint perturb (base : list Q) : Rand (list Q) :=
  match base with
  | [] => ret []
  | b :: rest =>
      noise <- uniform (-0.1) 0.1 ;;
      rest' <- perturb rest ;;
      ret (b + noise :: rest')
  end.

Definition target_base (instruction : string) : list Q :=
  if Py.str_in "pick" instruction || Py.str_in "grab" instruction
  then [0.3; 0.2; -0.4; 0.0; 0.5; 0.0]
  else if Py.str_in "place" instruction || Py.str_in "put" instruction
  then [0.2; 0.3; 0.1; 0.0; 0.2; 0.0]
  else if Py.str_in "move" instruction
  then [0.1; 0.1; 0.0; 0.0; 0.0; 0.0]
  else repeat 0.0 6.

Definition _generate_target (observation : Observation) : Rand (list Q) :=
  let instruction := Py.lower (language_instruction observation) in
  perturb (target_base instruction).

Definition _calculate_confidence (observation : Observation) : Rand Q :=
  let base_confidence :=
    if Py.list_in (embodiment_tag observation) SUPPORTED_EMBODIMENTS
    then 0.85 else 0.55 in
  noise <- uniform (-0.05) 0.05 ;;
  ret (Py.clamp 0.4 1.0 (base_confidence + noise)).

(** [tgt > curr] *)
Definition Qgtb (a b : Q) : bool :=
  match a ?= b with Gt => true | _ => false end.

(** The step toward the target, before the noise:
    [min(tgt, curr + step_size)] or [max(tgt, curr - step_size)]. *)
Definition toward (curr tgt step_size : Q) : Q :=
  if Qgtb tgt curr then Qmin tgt (curr + step_size)
  else Qmax tgt (curr - step_size).

(** The inner loop [for j, (curr, tgt) in enumerate(zip(current, target))]:
    returns [joint_commands]. *)
Fixpoint joints_loop (pairs : list (Q * Q)) : Rand (list Q) :=
  match pairs with
  | [] => ret []
  | (curr, tgt) :: rest =>
      wobble <- uniform (-0.02) 0.02 ;;
      let step_size := 0.05 + wobble in
      let new_pos := toward curr tgt step_size in
      noise <- uniform (-0.01) 0.01 ;;
      let new_pos := new_pos + noise in
      let new_pos := Py.clamp (-1) 1 new_pos in
      rest' <- joints_loop rest ;;
      ret (new_pos :: rest')
  end.

(** The effect of the assignments [current[j] = new_pos] on [current]: the
    entries the loop visited are replaced, the others stay. *)
Definition overwrite (current joint_commands : list Q) : list Q :=
  (joint_commands ++ skipn (List.length joint_commands) current)%list.

(** [self._action_history[-1]] of a history that is not empty. *)
Definition last_entry (history : list (list Q)) : list Q := last history [].

(** [0.5 if not H else H[-1][6] if len(H[-1]) > 6 else 0.5] *)
Definition gripper_start (history : list (list Q)) : Q :=
  match history with
  | [] => 0.5
  | _ :: _ =>
      if (6 <? List.length (last_entry history))%nat
      then nth 6 (last_entry history) 0.5
      else 0.5
  end.

Definition gripper_goal (observation : Observation) : Q :=
  if Py.str_in "pick" (Py.lower (language_instruction observation))
  then 1.0 else 0.0.

(** The outer loop [for i in range(CHUNK_SIZE)], over the indices still to
    visit.  [self._action_history] does not change while it runs.  It
    returns the actions, the final [current] and the final value of the
    variable [gripper], which is [gripper] on entry when no index is left. *)
Fixpoint steps_loop (history : list (list Q)) (observation : Observation)
    (base_time dt : Q) (target : list Q)
    (indices : list nat) (current : list Q) (gripper : Q)
  : Rand (list Action * list Q * Q) :=
  match indices with
  | [] => ret ([], current, gripper)
  | i :: later =>
      joint_commands <- joints_loop (combine current target) ;;
      let current := overwrite current joint_commands in
      let gripper_target := gripper_goal observation in
      let gripper_current := gripper_start history in
      let gripper := gripper_current + 0.15 * (gripper_target - gripper_current) in
      noise <- uniform (-0.05) 0.05 ;;
      let gripper := Py.clamp 0 1 (gripper + noise) in
      let action := {| joint_commands := joint_commands;
                       gripper_command := gripper;
                       action_timestamp := base_time + inject_Z (Z.of_nat i + 1) * dt |} in
      '(acts, final, final_gripper) <-
        steps_loop history observation base_time dt target later current gripper ;;
      ret (action :: acts, final, final_gripper)
  end.

(** [append] followed by [pop(0)] when more than ten entries are held. *)
Definition push_history (history : list (list Q)) (entry : list Q) : list (list Q) :=
  let history := (history ++ [entry])%list in
  if (10 <? List.length history)%nat then tl history else history.

Definition _generate_openvla_actions (observation : Observation) : M state (list Action) :=
  self <- get_self ;;
  let base_time := timestamp observation in
  let dt := 0.02 in
  let current :=
    match _action_history self with
    | [] => initial_joints observation
    | _ :: _ => last_entry (_action_history self)
    end in
  target <- lift (_generate_target observation) ;;
  (* [gripper] is unbound before the loop; its eight iterations bind it *)
  '(acts, current, gripper) <-
    lift (steps_loop (_action_history self) observation base_time dt target
            (seq 0 CHUNK_SIZE) current 0) ;;
  set_self {| _action_history :=
                push_history (_action_history self) (current ++ [gripper])%list;
              _loaded := _loaded self;
              _device := _device self;
              _checkpoint_path := _checkpoint_path self;
              _sequence_counter := _sequence_counter self |} ;;
  ret acts.

Definition predict (observation : Observation) : M state ActionChunk :=
  _check_loaded _loaded "OpenVLAModel" ;;
  start_time <- lift perf_counter ;;
  latency_ms <- lift (uniform MIN_LATENCY_MS MAX_LATENCY_MS) ;;
  lift (sleep (latency_ms / 1000.0)) ;;
  acts <- _generate_openvla_actions observation ;;
  end_time <- lift perf_counter ;;
  let inference_time_ms := (end_time - start_time) * 1000 in
  self <- get_self ;;
  set_self {| _sequence_counter := _sequence_counter self + 1;
              _loaded := _loaded self;
              _device := _device self;
              _checkpoint_path := _checkpoint_path self;
              _action_history := _action_history self |} ;;
  conf <- lift (_calculate_confidence observation) ;;
  self <- get_self ;;
  ret {| actions := acts;
         inference_time_ms := inference_time_ms;
         chunk_model_version := MODEL_VERSION;
         confidence := conf;
         sequence_number := _sequence_counter self |}.

(** [[self.predict(obs) for obs in observations]] *)
Fixpoint predict_each (observations : list Observation) : M state (list ActionChunk) :=
  match observations with
  | [] => ret []
  | obs :: rest =>
      chunk <- predict obs ;;
      chunks <- predict_each rest ;;
      ret (chunk :: chunks)
  end.

Definition predict_batch (observations : list Observation) : M state (list ActionChunk) :=
  _check_loaded _loaded "OpenVLAModel" ;;
  predict_each observations.

End OpenVLAModel.

(** ** groot.py: the unavailable stub *)

Module GR00TModel.

Definition MODEL_NAME : string := "groot-stub".
Definition MODEL_VERSION : string := "0.0.0-stub".
Definition BASE_MODEL : string := "groot".
Definition ACTION_DIM : Z := 32.
Definition CHUNK_SIZE : nat := 20.
Definition IMAGE_WIDTH : Z := 448.
Definition IMAGE_HEIGHT : Z := 448.
Definition SUPPORTED_EMBODIMENTS : list string :=
  ["nvidia_jetbot"; "figure_01"; "unitree_h1"; "unitree_g1"].

Record state : Type := mk_state {
  _loaded : bool;
  _device : string
}.

(** [__init__] *)
Definition init : state := {| _loaded := false; _device := "cpu" |}.

Definition load_message : string :=
  "GR00T model integration is not yet available." ++ Py.nl ++ Py.nl ++
  "GR00T is NVIDIA's foundation model for humanoid robots, " ++
  "currently in limited preview." ++ Py.nl ++ Py.nl ++
  "For humanoid robot inference, please use:" ++ Py.nl ++
  "  - model_type='pi0' for π0.6 (recommended)" ++ Py.nl ++
  "  - model_type='openvla' for OpenVLA 7B" ++ Py.nl ++ Py.nl ++
  "To track GR00T availability:" ++ Py.nl ++
  "  https://developer.nvidia.com/project-groot" ++ Py.nl ++
  "  https://developer.nvidia.com/isaac-sim".

Definition load (checkpoint_path : option string) (device : string) : M state unit :=
  raise (Py.mk_exn Py.GR00TNotAvailableError load_message).

Definition predict (observation : Observation) : M state ActionChunk :=
  raise (Py.mk_exn Py.GR00TNotAvailableError "GR00T model not loaded").

Definition predict_batch (observations : list Observation) : M state (list ActionChunk) :=
  raise (Py.mk_exn Py.GR00TNotAvailableError "GR00T model not loaded").

Definition unload : M state unit := ret tt.

Definition model_info : ModelInfo :=
  {| model_name := MODEL_NAME;
     model_version := MODEL_VERSION;
     action_dim := ACTION_DIM;
     info_chunk_size := Z.of_nat CHUNK_SIZE;
     supported_embodiments := SUPPORTED_EMBODIMENTS;
     image_width := IMAGE_WIDTH;
     image_height := IMAGE_HEIGHT;
     base_model := BASE_MODEL |}.

Definition chunk_size : Z := Z.of_nat CHUNK_SIZE.

End GR00TModel.

(** ** base.py: the [VLAModel] contract *)

Class VLAModel (S : Type) : Type := {
  load : option string -> string -> M S unit;
  predict : Observation -> M S ActionChunk;
  predict_batch : list Observation -> M S (list ActionChunk);
  unload : M S unit;
  model_info : S -> ModelInfo;
  chunk_size : S -> Z;
  is_loaded : S -> bool;
  device : S -> string
}.

#[global] Instance VLAModel_Pi0 (sin : Q -> Q) : VLAModel Pi0Model.state := {|
  load := Pi0Model.load;
  predict := Pi0Model.predict sin;
  predict_batch := Pi0Model.predict_batch sin;
  unload := Pi0Model.unload;
  model_info := fun _ => Pi0Model.model_info;
  chunk_size := fun _ => Pi0Model.chunk_size;
  is_loaded := Pi0Model._loaded;
  device := Pi0Model._device
|}.

#[global] Instance VLAModel_OpenVLA : VLAModel OpenVLAModel.state := {|
  load := OpenVLAModel.load;
  predict := OpenVLAModel.predict;
  predict_batch := OpenVLAModel.predict_batch;
  unload := OpenVLAModel.unload;
  model_info := fun _ => OpenVLAModel.model_info;
  chunk_size := fun _ => OpenVLAModel.chunk_size;
  is_loaded := OpenVLAModel._loaded;
  device := OpenVLAModel._device
|}.

#[global] Instance VLAModel_GR00T : VLAModel GR00TModel.state := {|
  load := GR00TModel.load;
  predict := GR00TModel.predict;
  predict_batch := GR00TModel.predict_batch;
  unload := GR00TModel.unload;
  model_info := fun _ => GR00TModel.model_info;
  chunk_size := fun _ => GR00TModel.chunk_size;
  is_loaded := GR00TModel._loaded;
  device := GR00TModel._device
|}.

(** ** __init__.py: the factory *)

(** An instance of one of the three classes. *)
Inductive Backend : Type :=
| Pi0 (self : Pi0Model.state)
| OpenVLA (self : OpenVLAModel.state)
| GR00T (self : GR00TModel.state).

(** A method call on an instance runs the method of its class. *)
Definition dispatch {A : Type}
    (on_pi0 : M Pi0Model.state A) (on_openvla : M OpenVLAModel.state A)
    (on_groot : M GR00TModel.state A) : M Backend A := fun b w =>
  match b with
  | Pi0 self => let '(r, self', w') := on_pi0 self w in (r, Pi0 self', w')
  | OpenVLA self => let '(r, self', w') := on_openvla self w in (r, OpenVLA self', w')
  | GR00T self => let '(r, self', w') := on_groot self w in (r, GR00T self', w')
  end.

Definition observe {A : Type} (sin : Q -> Q) (f : forall S, VLAModel S -> S -> A)
    (b : Backend) : A :=
  match b with
  | Pi0 self => f _ (VLAModel_Pi0 sin) self
  | OpenVLA self => f _ VLAModel_OpenVLA self
  | GR00T self => f _ VLAModel_GR00T self
  end.

#[global] Instance VLAModel_Backend (sin : Q -> Q) : VLAModel Backend := {|
  load := fun checkpoint_path dev =>
    dispatch (Pi0Model.load checkpoint_path dev) (OpenVLAModel.load checkpoint_path dev)
             (GR00TModel.load checkpoint_path dev);
  predict := fun observation =>
    dispatch (Pi0Model.predict sin observation) (OpenVLAModel.predict observation)
             (GR00TModel.predict observation);
  predict_batch := fun observations =>
    dispatch (Pi0Model.predict_batch sin observations)
             (OpenVLAModel.predict_batch observations)
             (GR00TModel.predict_batch observations);
  unload := dispatch Pi0Model.unload OpenVLAModel.unload GR00TModel.unload;
  model_info := observe sin (fun S _ => model_info);
  chunk_size := observe sin (fun S _ => chunk_size);
  is_loaded := observe sin (fun S _ => is_loaded);
  device := observe sin (fun S _ => device)
|}.

(** The classes the dictionary [model_map] holds, and their constructors. *)
Inductive ModelClass : Type := Pi0Model_class | OpenVLAModel_class | GR00TModel_class.

Definition construct (cls : ModelClass) : Backend :=
  match cls with
  | Pi0Model_class => Pi0 Pi0Model.init
  | OpenVLAModel_class => OpenVLA OpenVLAModel.init
  | GR00TModel_class => GR00T GR00TModel.init
  end.

Definition model_map : list (string * ModelClass) :=
  [("pi0", Pi0Model_class);
   ("pi0_6", Pi0Model_class);
   ("openvla", OpenVLAModel_class);
   ("groot", GR00TModel_class)].

(** [d[key]] when [key in d], on a dictionary kept as an association list. *)
Fixpoint dict_get {V : Type} (key : string) (d : list (string * V)) : option V :=
  match d with
  | [] => None
  | (k, v) :: rest => if String.eqb key k then Some v else dict_get key rest
  end.

Definition create_model (model_type : string) : Res Backend :=
  let model_type_lower := Py.lower model_type in
  match dict_get model_type_lower model_map with
  | None =>
      let available := Py.join ", " (Py.sorted (Py.dedup (map fst model_map))) in
      Raise (Py.mk_exn Py.ValueError
               (("Unknown model type: " ++ model_type ++ ". ") ++
                ("Available: " ++ available)))
  | Some cls => Ok (construct cls)
  end.

(** ** Vocabulary of the properties *)

(** The test the suite applies to a call made without [load]
    (tests/test_models.py, [test_predict_requires_loading]): the exception
    is a [RuntimeError] and its text contains "not loaded". *)
Definition is_NotLoaded (e : Py.exn) : bool :=
  Py.isinstance e Py.RuntimeError && Py.str_in "not loaded" (Py.exc_message e).

(** The exception a call ended with, when it did. *)
Definition raised {S A : Type} (out : Res A * S * World) : option Py.exn :=
  match out with
  | (Raise e, _, _) => Some e
  | (Ok _, _, _) => None
  end.

Definition returned {S A : Type} (out : Res A * S * World) : option A :=
  match out with
  | (Ok a, _, _) => Some a
  | (Raise _, _, _) => None
  end.

Definition fields_after {S A : Type} (out : Res A * S * World) : S := snd (fst out).
Definition world_after {S A : Type} (out : Res A * S * World) : World := snd out.

(** A caller that issues one [predict] per observation, one after the
    other, and keeps the chunks. *)
Fixpoint consecutive {S : Type} (call : Observation -> M S ActionChunk)
    (observations : list Observation) : M S (list ActionChunk) :=
  match observations with
  | [] => ret []
  | obs :: rest =>
      chunk <- call obs ;;
      chunks <- consecutive call rest ;;
      ret (chunk :: chunks)
  end.

(** The numbers [first, first + 1, ...], [count] of them. *)
Fixpoint count_from (first : Z) (count : nat) : list Z :=
  match count with
  | O => []
  | S count' => first :: count_from (first + 1) count'
  end.

Definition joint_ok (x : Q) : Prop := -1 <= x <= 1.
Definition gripper_ok (x : Q) : Prop := 0 <= x <= 1.

Definition action_ok (a : Action) : Prop :=
  Forall joint_ok (joint_commands a) /\ gripper_ok (gripper_command a).

(** Joint by joint, [next] differs from [previous] by less than [bound]. *)
Definition close_joints (bound : Q) (previous next : list Q) : Prop :=
  Forall2 (fun x y => Qabs (y - x) < bound) previous next.

(** Every action is close to the one before it, the first one to [previous]. *)
Fixpoint smooth_after (bound : Q) (previous : list Q) (acts : list Action) : Prop :=
  match acts with
  | [] => True
  | a :: rest =>
      close_joints bound previous (joint_commands a) /\
      smooth_after bound (joint_commands a) rest
  end.

Definition smooth (bound : Q) (acts : list Action) : Prop :=
  match acts with
  | [] => True
  | a :: rest => smooth_after bound (joint_commands a) rest
  end.

(** The actions of a chunk are stamped [base + (k + 1) * 0.02], [k] counted
    from [k0]. *)
Fixpoint stamped_from (base : Q) (k0 : nat) (acts : list Action) : Prop :=
  match acts with
  | [] => True
  | a :: rest =>
      action_timestamp a = base + inject_Z (Z.of_nat k0 + 1) * 0.02 /\
      stamped_from base (S k0) rest
  end.

(** What the suite checks on a pi0 chunk, with the stamps that tie the chunk
    to its observation. *)
Definition pi0_chunk_ok (obs : Observation) (chunk : ActionChunk) : Prop :=
  List.length (actions chunk) = Pi0Model.CHUNK_SIZE /\
  Forall action_ok (actions chunk) /\
  smooth 0.2 (actions chunk) /\
  stamped_from (timestamp obs) 0 (actions chunk).

(** What the suite checks on an OpenVLA chunk, with the stamps that tie the
    chunk to its observation. *)
Definition openvla_chunk_ok (obs : Observation) (chunk : ActionChunk) : Prop :=
  List.length (actions chunk) = OpenVLAModel.CHUNK_SIZE /\
  Forall action_ok (actions chunk) /\
  stamped_from (timestamp obs) 0 (actions chunk).

(** [moved] lies between [curr] and [tgt] and at most [step_size] away
    from [curr]; it is one full step away from [curr] unless the target is
    nearer than that, and then it is the target: a step of [step_size]
    toward the target that does not pass it. *)
Definition moves_toward (curr tgt step_size moved : Q) : Prop :=
  (curr < tgt ->
     curr <= moved <= tgt /\
     moved - curr <= step_size /\
     (moved == tgt \/ moved == curr + step_size)) /\
  (tgt <= curr ->
     tgt <= moved <= curr /\
     curr - moved <= step_size /\
     (moved == tgt \/ moved == curr - step_size)).

(** One joint update: a step of 0.05 give or take 0.02 toward the target,
    then noise of at most 0.01 either way, then the clamp to [-1, 1]. *)
Definition tracks (curr tgt new : Q) : Prop :=
  exists step_size noise moved,
    0.03 <= step_size <= 0.07 /\
    -0.01 <= noise <= 0.01 /\
    moves_toward curr tgt step_size moved /\
    new == Py.clamp (-1) 1 (moved + noise).

Definition joints_track (target previous next : list Q) : Prop :=
  Forall2 (fun ct new => tracks (fst ct) (snd ct) new) (combine previous target) next.

(** Every action is one joint update away from the one before it, the first
    one from [previous]. *)
Fixpoint tracking (target previous : list Q) (acts : list Action) : Prop :=
  match acts with
  | [] => True
  | a :: rest =>
      joints_track target previous (joint_commands a) /\
      tracking target (joint_commands a) rest
  end.

(** One gripper update: 15% of the way from [start] to [goal], then noise of
    at most 0.05 either way, then the clamp to [0, 1]. *)
Definition blend_step (start goal g : Q) : Prop :=
  exists noise,
    -0.05 <= noise <= 0.05 /\
    g == Py.clamp 0 1 (start + 0.15 * (goal - start) + noise).

(** Following the spec's words, "exponentially approaches ... at a fixed
    blend rate (0.15 per step) from the previous gripper value": each value
    is one gripper update away from the value of the step before it, the
    first one from [previous]. *)
Fixpoint exponential_approach (previous goal : Q) (grippers : list Q) : Prop :=
  match grippers with
  | [] => True
  | g :: rest => blend_step previous goal g /\ exponential_approach g goal rest
  end.

(** The number of values [predict] of the OpenVLA stub starts from: the six
    joints of the observation when the history is empty, else the whole
    last entry. *)
Definition start_length (history : list (list Q)) : nat :=
  match history with
  | [] => 6
  | _ :: _ => List.length (last history [])
  end.

(** ** Concrete inputs *)

(** The observation of the suite's fixture. *)
Definition sample_observation : Observation :=
  {| camera_image := "fake-jpeg-data";
     joint_positions := [0.1; 0.2; 0.3; 0.4; 0.5; 0.6];
     joint_velocities := [0.0; 0.0; 0.0; 0.0; 0.0; 0.0];
     language_instruction := "pick up the red cup";
     timestamp := 1234567890.0;
     embodiment_tag := "unitree_h1";
     session_id := Some "test-session" |}.

(** A world whose generator always answers one half, so that every
    [uniform(-a, a)] is 0, and whose clock starts at 0. *)
Definition steady_world : World :=
  {| rng_out := fun _ => (2 ^ 52)%Z; rng_pos := 0; clock := 0 |}.

(** ** config.py: the server configuration *)

Module Config.

(** [str(n)] of an [int]. *)
Definition str_int (n : Z) : string :=
  DecimalString.NilZero.string_of_int (Z.to_int n).

Record VLAConfig : Type := mk_VLAConfig {
  model_type : string;
  model_path : option string;
  device : string;
  batch_size : Z;
  max_batch_wait_ms : Z;
  timeout_ms : Z;
  image_width : Z;
  image_height : Z;
  action_dim : Z;
  chunk_size : Z;
  grpc_port : Z;
  max_workers : Z;
  max_message_size_mb : Z;
  health_check_interval_s : Z;
  metrics_enabled : bool;
  metrics_port : Z
}.

(** The field defaults of the dataclass. *)
Definition defaults : VLAConfig :=
  {| model_type := "pi0";
     model_path := None;
     device := "cpu";
     batch_size := 1;
     max_batch_wait_ms := 10;
     timeout_ms := 5000;
     image_width := 224;
     image_height := 224;
     action_dim := 7;
     chunk_size := 16;
     grpc_port := 50051;
     max_workers := 4;
     max_message_size_mb := 16;
     health_check_interval_s := 30;
     metrics_enabled := true;
     metrics_port := 9090 |}.

Definition valid_models : list string := ["pi0"; "pi0_6"; "openvla"; "groot"].

(** [f"{valid_models}"], the [repr] of that list. *)
Definition valid_models_text : string := "['pi0', 'pi0_6', 'openvla', 'groot']".

(** [["cpu", "cuda"] + [f"cuda:{i}" for i in range(8)]] *)
Definition valid_devices : list string :=
  List.app ["cpu"; "cuda"]
    (map (fun i => "cuda:" ++ str_int (Z.of_nat i)) (seq 0 8)).

(** [errors.append(message)] when [failed]. *)
Definition append_if (failed : bool) (message : string) (errors : list string)
  : list string :=
  if failed then (errors ++ [message])%list else errors.

Definition validate (self : VLAConfig) : list string :=
  let errors := [] in
  let errors :=
    append_if (negb (Py.list_in (Py.lower (model_type self)) valid_models))
      ("Invalid model_type: " ++ model_type self ++ ". Valid: " ++ valid_models_text)
      errors in
  let errors :=
    append_if (negb (Py.list_in (device self) valid_devices))
      ("Invalid device: " ++ device self ++ ". Valid: cpu, cuda, cuda:N")
      errors in
  let errors :=
    append_if (batch_size self <? 1)%Z
      ("batch_size must be >= 1, got " ++ str_int (batch_size self))
      errors in
  let errors :=
    append_if ((grpc_port self <? 1) || (65535 <? grpc_port self))%Z
      ("grpc_port must be 1-65535, got " ++ str_int (grpc_port self))
      errors in
  let errors :=
    append_if (max_workers self <? 1)%Z
      ("max_workers must be >= 1, got " ++ str_int (max_workers self))
      errors in
  errors.

(** The process environment, as [os.getenv] sees it. *)
Definition Env : Type := string -> option string.

(** [os.getenv(key)] and [os.getenv(key, default)]. *)
Definition getenv (env : Env) (key : string) : option string := env key.

Definition getenv_or (env : Env) (key default : string) : string :=
  match env key with
  | Some value => value
  | None => default
  end.

(** A value or a raised exception, for code that touches neither an
    instance nor the world. *)
Definition Exc (A : Type) : Type := (Py.exn + A)%type.

#[global] Instance Monad_Exc : Monad Exc := {|
  ret := fun A (a : A) => inr a;
  bind := fun A B (m : Exc A) (k : A -> Exc B) =>
            match m with
            | inl e => inl e
            | inr a => k a
            end
|}.

Section WithInt.

(** The built-in [int] applied to a string: the number read, or the
    [ValueError] raised. *)
Variable int : string -> Exc Z.

(** [VLAConfig.from_env]: the keyword arguments are evaluated in the order
    written. *)
Definition from_env (env : Env) : Exc VLAConfig :=
  let model_type := getenv_or env "VLA_MODEL_TYPE" "pi0" in
  let model_path := getenv env "VLA_MODEL_PATH" in
  let device := getenv_or env "VLA_DEVICE" "cpu" in
  batch_size <- int (getenv_or env "VLA_BATCH_SIZE" "1") ;;
  max_batch_wait_ms <- int (getenv_or env "VLA_MAX_BATCH_WAIT_MS" "10") ;;
  timeout_ms <- int (getenv_or env "VLA_TIMEOUT_MS" "5000") ;;
  image_width <- int (getenv_or env "VLA_IMAGE_WIDTH" "224") ;;
  image_height <- int (getenv_or env "VLA_IMAGE_HEIGHT" "224") ;;
  action_dim <- int (getenv_or env "VLA_ACTION_DIM" "7") ;;
  chunk_size <- int (getenv_or env "VLA_CHUNK_SIZE" "16") ;;
  grpc_port <- int (getenv_or env "VLA_GRPC_PORT" "50051") ;;
  max_workers <- int (getenv_or env "VLA_MAX_WORKERS" "4") ;;
  max_message_size_mb <- int (getenv_or env "VLA_MAX_MESSAGE_SIZE_MB" "16") ;;
  health_check_interval_s <- int (getenv_or env "VLA_HEALTH_CHECK_INTERVAL_S" "30") ;;
  let metrics_enabled :=
    String.eqb (Py.lower (getenv_or env "VLA_METRICS_ENABLED" "true")) "true" in
  metrics_port <- int (getenv_or env "VLA_METRICS_PORT" "9090") ;;
  ret {| model_type := model_type;
         model_path := model_path;
         device := device;
         batch_size := batch_size;
         max_batch_wait_ms := max_batch_wait_ms;
         timeout_ms := timeout_ms;
         image_width := image_width;
         image_height := image_height;
         action_dim := action_dim;
         chunk_size := chunk_size;
         grpc_port := grpc_port;
         max_workers := max_workers;
         max_message_size_mb := max_message_size_mb;
         health_check_interval_s := health_check_interval_s;
         metrics_enabled := metrics_enabled;
         metrics_port := metrics_port |}.

(** [get_config], on the module global [_config]: the result and the new
    value of the global. *)
Definition get_config (env : Env) (_config : option VLAConfig)
  : Exc VLAConfig * option VLAConfig :=
  match _config with
  | None =>
      match from_env env with
      | inr config => (inr config, Some config)
      | inl e => (inl e, None)
      end
  | Some config => (inr config, Some config)
  end.

Definition reset_config (_config : option VLAConfig) : option VLAConfig := None.

End WithInt.

(** The numeric settings [from_env] reads, with their default texts, in
    the order it reads them. *)
Definition numeric_settings : list (string * string) :=
  [("VLA_BATCH_SIZE", "1");
   ("VLA_MAX_BATCH_WAIT_MS", "10");
   ("VLA_TIMEOUT_MS", "5000");
   ("VLA_IMAGE_WIDTH", "224");
   ("VLA_IMAGE_HEIGHT", "224");
   ("VLA_ACTION_DIM", "7");
   ("VLA_CHUNK_SIZE", "16");
   ("VLA_GRPC_PORT", "50051");
   ("VLA_MAX_WORKERS", "4");
   ("VLA_MAX_MESSAGE_SIZE_MB", "16");
   ("VLA_HEALTH_CHECK_INTERVAL_S", "30");
   ("VLA_METRICS_PORT", "9090")].

(** The first exception [int] raises over a list of settings, if any. *)
Fixpoint first_failure (int : string -> Exc Z) (env : Env)
    (settings : list (string * string)) : option Py.exn :=
  match settings with
  | [] => None
  | (key, default) :: rest =>
      match int (getenv_or env key default) with
      | inl e => Some e
      | inr _ => first_failure int env rest
      end
  end.

(** A reading of [int] on plain decimal texts, an optional minus sign and
    digits, used to run [from_env] on concrete environments.  (Python's
    [int] reads some more texts: surrounding blanks, a plus sign,
    underscores between digits.) *)
Definition int_plain (text : string) : Exc Z :=
  match DecimalString.NilZero.int_of_string text with
  | Some n => inr (Z.of_int n)
  | None =>
      inl (Py.mk_exn Py.ValueError
             ("invalid literal for int() with base 10: '" ++ text ++ "'"))
  end.

End Config.

(** ** metrics.py: the metrics collector *)

Module Metrics.

(** The collectors of [prometheus_client] are outside the repository: they
    are modelled by what they are told, call by call.  Labels are the
    keyword arguments of [labels(...)], in the order written. *)
Inductive Sample : Type :=
| CounterInc (name : string) (labels : list (string * string))
| HistogramObserve (name : string) (labels : list (string * string)) (value : Q)
| GaugeSet (name : string) (value : Q)
| InfoSet (name : string) (value : list (string * string)).

(** A [VLAMetrics] object: [_enabled], and what its collectors have been
    told so far, oldest first.  The start time and the registry, which only
    the uptime and export methods read, are left out with those methods. *)
Record VLAMetrics : Type := mk_VLAMetrics {
  _enabled : bool;
  told : list Sample
}.

(** [__init__], given the module constant [PROMETHEUS_AVAILABLE]. *)
Definition init (PROMETHEUS_AVAILABLE : bool) : VLAMetrics :=
  {| _enabled := PROMETHEUS_AVAILABLE; told := [] |}.

Definition tell (self : VLAMetrics) (sample : Sample) : VLAMetrics :=
  {| _enabled := _enabled self; told := (told self ++ [sample])%list |}.

Definition record_request (model_type status : string) (self : VLAMetrics)
  : VLAMetrics :=
  if negb (_enabled self) then self
  else tell self (CounterInc "vla_inference_requests_total"
                    [("model_type", model_type); ("status", status)]).

Definition record_batch (model_type : string) (size : Q) (self : VLAMetrics)
  : VLAMetrics :=
  if negb (_enabled self) then self
  else tell self (HistogramObserve "vla_batch_size" [("model_type", model_type)] size).

Definition update_gpu_stats (utilization memory_used memory_total : Q)
    (self : VLAMetrics) : VLAMetrics :=
  if negb (_enabled self) then self
  else
    let self := tell self (GaugeSet "vla_gpu_utilization_percent" utilization) in
    let self := tell self (GaugeSet "vla_gpu_memory_used_bytes" memory_used) in
    tell self (GaugeSet "vla_gpu_memory_total_bytes" memory_total).

Definition update_queue_depth (depth : Q) (self : VLAMetrics) : VLAMetrics :=
  if negb (_enabled self) then self
  else tell self (GaugeSet "vla_queue_depth" depth).

Definition set_model_info (model_name model_version base_model device : string)
    (self : VLAMetrics) : VLAMetrics :=
  if negb (_enabled self) then self
  else tell self (InfoSet "vla_model"
                    [("model_name", model_name);
                     ("model_version", model_version);
                     ("base_model", base_model);
                     ("device", device)]).

(** [with self.measure_latency(model_type, embodiment): body], where the
    body acts on fields of its own: the value or exception of the
    statement, the metrics object and the body's fields afterwards. *)
Definition measure_latency {S A : Type} (model_type embodiment : string)
    (body : M S A) : M (VLAMetrics * S) A := fun state w =>
  let (self, fields) := state in
  if negb (_enabled self) then
    let '(result, fields, w) := body fields w in
    (result, (self, fields), w)
  else
    let (start, w) := perf_counter w in
    (* try: yield *)
    let '(result, fields, w) := body fields w in
    let self :=
      match result with
      | Ok _ =>
          tell self (CounterInc "vla_inference_requests_total"
                       [("model_type", model_type); ("status", "success")])
      | Raise e =>
          (* except Exception: ...; raise *)
          if Py.isinstance e Py.Exception
          then tell self (CounterInc "vla_inference_requests_total"
                            [("model_type", model_type); ("status", "error")])
          else self
      end in
    (* finally *)
    let (finish, w) := perf_counter w in
    let latency := finish - start in
    let self :=
      tell self (HistogramObserve "vla_inference_latency_seconds"
                   [("model_type", model_type); ("embodiment", embodiment)]
                   latency) in
    (result, (self, fields), w).

(** Equality of label lists. *)
Fixpoint labels_eqb (l1 l2 : list (string * string)) : bool :=
  match l1, l2 with
  | [], [] => true
  | (k1, v1) :: r1, (k2, v2) :: r2 =>
      String.eqb k1 k2 && String.eqb v1 v2 && labels_eqb r1 r2
  | _, _ => false
  end.

Definition is_request (model_type status : string) (sample : Sample) : bool :=
  match sample with
  | CounterInc name labels =>
      String.eqb name "vla_inference_requests_total" &&
      labels_eqb labels [("model_type", model_type); ("status", status)]
  | _ => false
  end.

(** How often the request counter was incremented for a model type and a
    status. *)
Definition requests_total (model_type status : string) (self : VLAMetrics) : nat :=
  List.length (filter (is_request model_type status) (told self)).

Definition latency_of (model_type embodiment : string) (sample : Sample) : list Q :=
  match sample with
  | HistogramObserve name labels value =>
      if String.eqb name "vla_inference_latency_seconds" &&
         labels_eqb labels [("model_type", model_type); ("embodiment", embodiment)]
      then [value] else []
  | _ => []
  end.

(** The latencies observed for a model type and an embodiment, oldest
    first. *)
Definition latencies (model_type embodiment : string) (self : VLAMetrics) : list Q :=
  flat_map (latency_of model_type embodiment) (told self).

End Metrics.

(** ** Vocabulary of the further properties *)

(** A call made the way the doc string of [measure_latency] shows:
    [with metrics.measure_latency(model_type, embodiment): model.predict(obs)],
    with the observation's embodiment tag. *)
Definition measured {S : Type} (model_type : string)
    (call : Observation -> M S ActionChunk) (obs : Observation)
  : M (Metrics.VLAMetrics * S) ActionChunk :=
  Metrics.measure_latency model_type (embodiment_tag obs) (call obs).

(** The joint commands of the last action, [[]] when there is none. *)
Definition last_joints (acts : list Action) : list Q :=
  last (map joint_commands acts) [].

(** The actions of successive chunks, end to end. *)
Definition trajectory (chunks : list ActionChunk) : list Action :=
  List.concat (map actions chunks).

(** * Properties *)

(** ** The factory *)

Lemma dict_get_model_map_other (key : string) :
  key <> "pi0" -> key <> "pi0_6" -> key <> "openvla" -> key <> "groot" ->
  dict_get key model_map = None.
Proof.
  intros H1 H2 H3 H4. unfold model_map. cbn [dict_get].
  destruct (String.eqb_spec key "pi0"); [contradiction|].
  destruct (String.eqb_spec key "pi0_6"); [contradiction|].
  destruct (String.eqb_spec key "openvla"); [contradiction|].
  destruct (String.eqb_spec key "groot"); [contradiction|].
  reflexivity.
Qed.

Lemma available_listing :
  Py.sorted (Py.dedup (map fst model_map)) = ["groot"; "openvla"; "pi0"; "pi0_6"].
Proof. reflexivity. Qed.

(** C4.  [create_model] builds the pi0 stub for "pi0" and "pi0_6", the
    OpenVLA stub for "openvla" and the GR00T stub for "groot", whatever the
    letter case of the identifier; the instance is the one the constructor
    leaves, with [_loaded] false.  Every other identifier raises a
    [ValueError] whose text repeats the identifier as given and lists
    "groot, openvla, pi0, pi0_6", the sorted set of the keys. *)
Theorem create_model_dispatch (model_type : string) :
  (Py.lower model_type = "pi0" \/ Py.lower model_type = "pi0_6" ->
     create_model model_type = Ok (Pi0 Pi0Model.init)) /\
  (Py.lower model_type = "openvla" ->
     create_model model_type = Ok (OpenVLA OpenVLAModel.init)) /\
  (Py.lower model_type = "groot" ->
     create_model model_type = Ok (GR00T GR00TModel.init)) /\
  (Py.lower model_type <> "pi0" -> Py.lower model_type <> "pi0_6" ->
   Py.lower model_type <> "openvla" -> Py.lower model_type <> "groot" ->
     create_model model_type =
       Raise (Py.mk_exn Py.ValueError
                (("Unknown model type: " ++ model_type ++ ". ") ++
                 "Available: groot, openvla, pi0, pi0_6"))) /\
  Pi0Model._loaded Pi0Model.init = false /\
  OpenVLAModel._loaded OpenVLAModel.init = false /\
  GR00TModel._loaded GR00TModel.init = false /\
  Py.sorted (Py.dedup (map fst model_map)) = ["groot"; "openvla"; "pi0"; "pi0_6"].
Proof.
  unfold create_model.
  repeat split.
  - intros [H | H]; rewrite H; reflexivity.
  - intros H; rewrite H; reflexivity.
  - intros H; rewrite H; reflexivity.
  - intros H1 H2 H3 H4.
    rewrite (dict_get_model_map_other _ H1 H2 H3 H4). reflexivity.
Qed.

Lemma create_model_dispatch_witness :
  create_model "PI0" = Ok (Pi0 Pi0Model.init) /\
  create_model "Pi0_6" = Ok (Pi0 Pi0Model.init) /\
  create_model "OpenVLA" = Ok (OpenVLA OpenVLAModel.init) /\
  create_model "GROOT" = Ok (GR00T GR00TModel.init) /\
  create_model "unknown_model" =
    Raise (Py.mk_exn Py.ValueError
             "Unknown model type: unknown_model. Available: groot, openvla, pi0, pi0_6").
Proof.
  split; [| split; [| split; [| split]]].
  - apply (proj1 (create_model_dispatch "PI0")). left; reflexivity.
  - apply (proj1 (create_model_dispatch "Pi0_6")). right; reflexivity.
  - apply (proj1 (proj2 (create_model_dispatch "OpenVLA"))). reflexivity.
  - apply (proj1 (proj2 (proj2 (create_model_dispatch "GROOT")))). reflexivity.
  - apply (proj1 (proj2 (proj2 (proj2 (create_model_dispatch "unknown_model")))));
      discriminate.
Defined.

(** The factory yields nothing but the three freshly constructed stubs. *)
Lemma create_model_fresh (model_type : string) (b : Backend) :
  create_model model_type = Ok b ->
  b = Pi0 Pi0Model.init \/ b = OpenVLA OpenVLAModel.init \/ b = GR00T GR00TModel.init.
Proof.
  unfold create_model. destruct (dict_get _ _) as [cls|]; [| discriminate].
  intros H. injection H as <-. destruct cls; cbn; auto.
Qed.

(** ** Calls made before [load] *)

Lemma check_loaded_unloaded {S : Type} (is_loaded : S -> bool) (name : string)
    (self : S) (w : World) :
  is_loaded self = false ->
  _check_loaded is_loaded name self w =
    (Raise (Py.mk_exn Py.RuntimeError
              (name ++ " model not loaded. " ++ "Call load() before predict().")),
     self, w).
Proof. intros H. unfold _check_loaded. cbn. rewrite H. reflexivity. Qed.

Lemma check_loaded_loaded {S : Type} (is_loaded : S -> bool) (name : string)
    (self : S) (w : World) :
  is_loaded self = true -> _check_loaded is_loaded name self w = (Ok tt, self, w).
Proof. intros H. unfold _check_loaded. cbn. rewrite H. reflexivity. Qed.

Lemma pi0_unloaded_calls sin (self : Pi0Model.state) obs obss w :
  Pi0Model._loaded self = false ->
  let e := Py.mk_exn Py.RuntimeError
             "Pi0Model model not loaded. Call load() before predict()." in
  Pi0Model.predict sin obs self w = (Raise e, self, w) /\
  Pi0Model.predict_batch sin obss self w = (Raise e, self, w).
Proof.
  intros H. unfold Pi0Model.predict, Pi0Model.predict_batch.
  cbn [bind Monad_M]. rewrite (check_loaded_unloaded _ _ _ _ H). split; reflexivity.
Qed.

Lemma openvla_unloaded_calls (self : OpenVLAModel.state) obs obss w :
  OpenVLAModel._loaded self = false ->
  let e := Py.mk_exn Py.RuntimeError
             "OpenVLAModel model not loaded. Call load() before predict()." in
  OpenVLAModel.predict obs self w = (Raise e, self, w) /\
  OpenVLAModel.predict_batch obss self w = (Raise e, self, w).
Proof.
  intros H. unfold OpenVLAModel.predict, OpenVLAModel.predict_batch.
  cbn [bind Monad_M]. rewrite (check_loaded_unloaded _ _ _ _ H). split; reflexivity.
Qed.

(** C1.  On an instance that comes out of the factory, [predict] and
    [predict_batch] raise an exception that passes the not-loaded test (a
    [RuntimeError] whose text contains "not loaded"), and leave the
    instance and the world as they were.  For the GR00T stub the exception
    is its [GR00TNotAvailableError], a subclass of [RuntimeError], with the
    text "GR00T model not loaded". *)
Theorem predict_before_load_raises (sin : Q -> Q) (model_type : string) (b : Backend)
    (obs : Observation) (obss : list Observation) (w : World) :
  create_model model_type = Ok b ->
  is_loaded (VLAModel := VLAModel_Backend sin) b = false /\
  (exists e, predict (VLAModel := VLAModel_Backend sin) obs b w = (Raise e, b, w) /\
             is_NotLoaded e = true) /\
  (exists e, predict_batch (VLAModel := VLAModel_Backend sin) obss b w = (Raise e, b, w) /\
             is_NotLoaded e = true).
Proof.
  intros H. destruct (create_model_fresh _ _ H) as [-> | [-> | ->]].
  - destruct (pi0_unloaded_calls sin Pi0Model.init obs obss w eq_refl) as [P B].
    split; [reflexivity|]. split; eexists; split.
    + cbn [predict VLAModel_Backend dispatch]. rewrite P. reflexivity.
    + reflexivity.
    + cbn [predict_batch VLAModel_Backend dispatch]. rewrite B. reflexivity.
    + reflexivity.
  - destruct (openvla_unloaded_calls OpenVLAModel.init obs obss w eq_refl) as [P B].
    split; [reflexivity|]. split; eexists; split.
    + cbn [predict VLAModel_Backend dispatch]. rewrite P. reflexivity.
    + reflexivity.
    + cbn [predict_batch VLAModel_Backend dispatch]. rewrite B. reflexivity.
    + reflexivity.
  - split; [reflexivity|]. split; eexists; split; reflexivity.
Qed.

Lemma predict_before_load_raises_witness :
  exists e,
    predict (VLAModel := VLAModel_Backend sin_approx)
      (mk_Observation "" [0.1] [] "pick" 0 "aloha" None)
      (GR00T GR00TModel.init) (mk_World (fun _ => 0%Z) 0 0)
    = (Raise e, GR00T GR00TModel.init, mk_World (fun _ => 0%Z) 0 0) /\
    is_NotLoaded e = true.
Proof.
  exact (proj1 (proj2 (predict_before_load_raises sin_approx "groot"
                         (GR00T GR00TModel.init)
                         (mk_Observation "" [0.1] [] "pick" 0 "aloha" None) []
                         (mk_World (fun _ => 0%Z) 0 0) eq_refl))).
Defined.

(** ** The unavailable stub *)

(** C7.  Whatever its fields hold, the GR00T stub raises
    [GR00TNotAvailableError] from [load], with a text that contains
    "not yet available" and names "pi0" (and "openvla"), and raises the same
    class from [predict] and [predict_batch]; none of them changes the
    instance.  [unload] returns normally and changes nothing.  The metadata
    answers 32 action dimensions, chunk size 20 and a 448 x 448 image. *)
Theorem groot_never_available (self : GR00TModel.state)
    (checkpoint_path : option string) (dev : string)
    (obs : Observation) (obss : list Observation) (w : World) :
  (exists e, GR00TModel.load checkpoint_path dev self w = (Raise e, self, w) /\
             Py.exc_class e = Py.GR00TNotAvailableError /\
             Py.str_in "not yet available" (Py.exc_message e) = true /\
             Py.str_in "pi0" (Py.exc_message e) = true /\
             Py.str_in "openvla" (Py.exc_message e) = true) /\
  (exists e, GR00TModel.predict obs self w = (Raise e, self, w) /\
             Py.exc_class e = Py.GR00TNotAvailableError) /\
  (exists e, GR00TModel.predict_batch obss self w = (Raise e, self, w) /\
             Py.exc_class e = Py.GR00TNotAvailableError) /\
  GR00TModel.unload self w = (Ok tt, self, w) /\
  action_dim GR00TModel.model_info = 32%Z /\
  info_chunk_size GR00TModel.model_info = 20%Z /\
  image_width GR00TModel.model_info = 448%Z /\
  image_height GR00TModel.model_info = 448%Z /\
  GR00TModel.chunk_size = 20%Z.
Proof.
  split; [| split; [| split]].
  - eexists. split; [reflexivity|]. repeat split; vm_compute; reflexivity.
  - eexists. split; reflexivity.
  - eexists. split; reflexivity.
  - repeat split.
Qed.

(** ** Lifecycle of the two working stubs *)

(** C6.  On a loaded instance [load] returns normally and leaves every
    field, so also the sequence counter and the continuity state, and the
    world as they were.  On an unloaded instance it sets [_loaded], records
    the device and the checkpoint path, and puts the counter at 0 and the
    continuity state at its empty value. *)
Theorem load_only_resets_on_transition
    (p : Pi0Model.state) (o : OpenVLAModel.state)
    (checkpoint_path : option string) (dev : string) (w : World) :
  (Pi0Model._loaded p = true ->
     Pi0Model.load checkpoint_path dev p w = (Ok tt, p, w)) /\
  (Pi0Model._loaded p = false ->
     exists w',
       Pi0Model.load checkpoint_path dev p w =
         (Ok tt,
          {| Pi0Model._loaded := true;
             Pi0Model._device := dev;
             Pi0Model._checkpoint_path := checkpoint_path;
             Pi0Model._sequence_counter := 0;
             Pi0Model._last_action := None |}, w')) /\
  (OpenVLAModel._loaded o = true ->
     OpenVLAModel.load checkpoint_path dev o w = (Ok tt, o, w)) /\
  (OpenVLAModel._loaded o = false ->
     exists w',
       OpenVLAModel.load checkpoint_path dev o w =
         (Ok tt,
          {| OpenVLAModel._loaded := true;
             OpenVLAModel._device := dev;
             OpenVLAModel._checkpoint_path := checkpoint_path;
             OpenVLAModel._sequence_counter := 0;
             OpenVLAModel._action_history := [] |}, w')).
Proof.
  unfold Pi0Model.load, OpenVLAModel.load. cbn [bind Monad_M get_self].
  repeat split; intros H; rewrite H; try reflexivity; eexists; reflexivity.
Qed.

Lemma load_only_resets_on_transition_witness :
  let p := {| Pi0Model._loaded := true; Pi0Model._device := "cpu";
              Pi0Model._checkpoint_path := None;
              Pi0Model._sequence_counter := 5;
              Pi0Model._last_action := Some [0.1; 0.2; 0.3; 0.4; 0.5; 0.6] |} in
  let w := mk_World (fun _ => 0%Z) 0 0 in
  Pi0Model.load (Some "ckpt") "cuda" p w = (Ok tt, p, w) /\
  exists w',
    OpenVLAModel.load (Some "ckpt") "cuda" OpenVLAModel.init w =
      (Ok tt,
       {| OpenVLAModel._loaded := true;
          OpenVLAModel._device := "cuda";
          OpenVLAModel._checkpoint_path := Some "ckpt";
          OpenVLAModel._sequence_counter := 0;
          OpenVLAModel._action_history := [] |}, w').
Proof.
  intros p w. split.
  - exact (proj1 (load_only_resets_on_transition p OpenVLAModel.init
                    (Some "ckpt") "cuda" w) eq_refl).
  - exact (proj2 (proj2 (proj2 (load_only_resets_on_transition p OpenVLAModel.init
                                   (Some "ckpt") "cuda" w))) eq_refl).
Defined.

(** What [predict] does on a loaded pi0 instance. *)
Lemma pi0_predict_loaded sin (self : Pi0Model.state) obs w :
  Pi0Model._loaded self = true ->
  exists acts current conf time w',
    Pi0Model.steps_loop sin (Pi0Model._sequence_counter self) (timestamp obs) 0.02
      (seq 0 Pi0Model.CHUNK_SIZE)
      (match Pi0Model._last_action self with
       | Some last => last
       | None => initial_joints obs
       end) = (acts, current) /\
    Pi0Model.predict sin obs self w =
      (Ok {| actions := acts;
             inference_time_ms := time;
             chunk_model_version := Pi0Model.MODEL_VERSION;
             confidence := conf;
             sequence_number := Pi0Model._sequence_counter self + 1 |},
       {| Pi0Model._loaded := true;
          Pi0Model._device := Pi0Model._device self;
          Pi0Model._checkpoint_path := Pi0Model._checkpoint_path self;
          Pi0Model._sequence_counter := Pi0Model._sequence_counter self + 1;
          Pi0Model._last_action := Some current |}, w').
Proof.
  intros H.
  unfold Pi0Model.predict, _check_loaded, Pi0Model._generate_smooth_actions.
  cbn [bind ret Monad_M get_self set_self lift raise]. rewrite H. cbn [negb].
  cbn [bind ret Monad_M get_self set_self lift raise perf_counter uniform sleep
       random Monad_Rand Pi0Model._calculate_confidence].
  destruct (Pi0Model.steps_loop _ _ _ _ _ _) as [acts current] eqn:E.
  cbn. rewrite H. do 5 eexists. split; reflexivity.
Qed.

(** What [predict] does on a loaded OpenVLA instance. *)
Lemma openvla_predict_loaded (self : OpenVLAModel.state) obs w :
  OpenVLAModel._loaded self = true ->
  exists w1 target w2 acts current gripper w3 conf time w',
    OpenVLAModel._generate_target obs w1 = (target, w2) /\
    OpenVLAModel.steps_loop (OpenVLAModel._action_history self) obs (timestamp obs) 0.02
      target (seq 0 OpenVLAModel.CHUNK_SIZE)
      (match OpenVLAModel._action_history self with
       | [] => initial_joints obs
       | _ :: _ => OpenVLAModel.last_entry (OpenVLAModel._action_history self)
       end) 0 w2 = (acts, current, gripper, w3) /\
    OpenVLAModel.predict obs self w =
      (Ok {| actions := acts;
             inference_time_ms := time;
             chunk_model_version := OpenVLAModel.MODEL_VERSION;
             confidence := conf;
             sequence_number := OpenVLAModel._sequence_counter self + 1 |},
       {| OpenVLAModel._loaded := true;
          OpenVLAModel._device := OpenVLAModel._device self;
          OpenVLAModel._checkpoint_path := OpenVLAModel._checkpoint_path self;
          OpenVLAModel._sequence_counter := OpenVLAModel._sequence_counter self + 1;
          OpenVLAModel._action_history :=
            OpenVLAModel.push_history (OpenVLAModel._action_history self)
              (current ++ [gripper])%list |}, w').
Proof.
  intros H.
  unfold OpenVLAModel.predict, _check_loaded, OpenVLAModel._generate_openvla_actions.
  unfold lift.
  cbn [bind ret Monad_M get_self set_self raise]. rewrite H. cbn [negb].
  cbn [bind ret Monad_M get_self set_self lift raise perf_counter uniform sleep
       random Monad_Rand OpenVLAModel._calculate_confidence].
  match goal with
  | |- context [OpenVLAModel._generate_target obs ?w1] =>
      destruct (OpenVLAModel._generate_target obs w1) as [target w2] eqn:T
  end.
  match goal with
  | |- context [OpenVLAModel.steps_loop ?h ?o ?b ?d ?t ?i ?c ?g ?w2] =>
      destruct (OpenVLAModel.steps_loop h o b d t i c g w2)
        as [[[acts current] gripper] w3] eqn:E
  end.
  cbn. rewrite H. do 10 eexists. split; [exact T|]. split; [exact E|]. reflexivity.
Qed.

(** ** Sequence numbers *)

(** The counter discipline shared by the two working stubs: on a loaded
    instance a call returns a chunk numbered one above the counter and
    leaves the instance loaded with the counter at that number.  [post] is
    whatever else a call guarantees about its chunk. *)
Section Counting.

Variable State : Type.
Variable loaded : State -> bool.
Variable counter : State -> Z.
Variable call : Observation -> M State ActionChunk.
Variable post : Observation -> ActionChunk -> Prop.

Hypothesis call_counts : forall self obs w,
  loaded self = true ->
  exists chunk self' w',
    call obs self w = (Ok chunk, self', w') /\
    sequence_number chunk = (counter self + 1)%Z /\
    loaded self' = true /\
    counter self' = (counter self + 1)%Z /\
    post obs chunk.

Lemma consecutive_counts (obss : list Observation) : forall self w,
  loaded self = true ->
  exists chunks self' w',
    consecutive call obss self w = (Ok chunks, self', w') /\
    map sequence_number chunks = count_from (counter self + 1) (List.length obss) /\
    loaded self' = true /\
    counter self' = (counter self + Z.of_nat (List.length obss))%Z /\
    Forall2 post obss chunks.
Proof.
  induction obss as [| obs rest IH]; intros self w L.
  - exists [], self, w. cbn. repeat split; auto. lia.
  - destruct (call_counts self obs w L) as (chunk & s1 & w1 & E & N & L1 & C1 & P1).
    destruct (IH s1 w1 L1) as (chunks & s2 & w2 & E2 & N2 & L2 & C2 & P2).
    exists (chunk :: chunks), s2, w2.
    cbn [consecutive bind Monad_M ret]. rewrite E, E2.
    repeat split; auto.
    + cbn [map List.length count_from]. rewrite N, N2, C1. reflexivity.
    + rewrite C2, C1. cbn [List.length]. lia.
Qed.

End Counting.

Lemma pi0_call_counts sin (self : Pi0Model.state) obs w :
  Pi0Model._loaded self = true ->
  exists chunk self' w',
    Pi0Model.predict sin obs self w = (Ok chunk, self', w') /\
    sequence_number chunk = (Pi0Model._sequence_counter self + 1)%Z /\
    Pi0Model._loaded self' = true /\
    Pi0Model._sequence_counter self' = (Pi0Model._sequence_counter self + 1)%Z /\
    True.
Proof.
  intros L. destruct (pi0_predict_loaded sin self obs w L)
    as (acts & current & conf & time & w' & _ & E).
  rewrite E. do 3 eexists. repeat split.
Qed.

Lemma openvla_call_counts (self : OpenVLAModel.state) obs w :
  OpenVLAModel._loaded self = true ->
  exists chunk self' w',
    OpenVLAModel.predict obs self w = (Ok chunk, self', w') /\
    sequence_number chunk = (OpenVLAModel._sequence_counter self + 1)%Z /\
    OpenVLAModel._loaded self' = true /\
    OpenVLAModel._sequence_counter self' = (OpenVLAModel._sequence_counter self + 1)%Z /\
    True.
Proof.
  intros L. destruct (openvla_predict_loaded self obs w L)
    as (w1 & target & w2 & acts & current & gripper & w3 & conf & time & w' & _ & _ & E).
  rewrite E. do 3 eexists. repeat split.
Qed.

Lemma pi0_load_result (self : Pi0Model.state) cp dev w :
  exists self' w',
    Pi0Model.load cp dev self w = (Ok tt, self', w') /\
    Pi0Model._loaded self' = true /\
    (Pi0Model._loaded self = false -> Pi0Model._sequence_counter self' = 0%Z).
Proof.
  unfold Pi0Model.load. cbn [bind Monad_M get_self].
  destruct (Pi0Model._loaded self) eqn:L.
  - exists self, w. repeat split; auto. discriminate.
  - do 2 eexists. split; [reflexivity|]. split; reflexivity.
Qed.

Lemma openvla_load_result (self : OpenVLAModel.state) cp dev w :
  exists self' w',
    OpenVLAModel.load cp dev self w = (Ok tt, self', w') /\
    OpenVLAModel._loaded self' = true /\
    (OpenVLAModel._loaded self = false -> OpenVLAModel._sequence_counter self' = 0%Z).
Proof.
  unfold OpenVLAModel.load. cbn [bind Monad_M get_self].
  destruct (OpenVLAModel._loaded self) eqn:L.
  - exists self, w. repeat split; auto. discriminate.
  - do 2 eexists. split; [reflexivity|]. split; reflexivity.
Qed.

Lemma pi0_unload_result (self : Pi0Model.state) w :
  exists self', Pi0Model.unload self w = (Ok tt, self', w) /\
                Pi0Model._loaded self' = false.
Proof.
  unfold Pi0Model.unload. cbn [bind Monad_M get_self].
  destruct (Pi0Model._loaded self) eqn:L; eexists; split; try reflexivity. exact L.
Qed.

Lemma openvla_unload_result (self : OpenVLAModel.state) w :
  exists self', OpenVLAModel.unload self w = (Ok tt, self', w) /\
                OpenVLAModel._loaded self' = false.
Proof.
  unfold OpenVLAModel.unload. cbn [bind Monad_M get_self].
  destruct (OpenVLAModel._loaded self) eqn:L; eexists; split; try reflexivity. exact L.
Qed.

(** C2.  From an unloaded pi0 or OpenVLA instance, [load] followed by one
    [predict] per observation of a list returns chunks numbered 1, 2, ...,
    N in call order (so the first is numbered 1); and from any instance,
    [unload], [load] and one [predict] return a chunk numbered 1. *)
Theorem sequence_numbers_count_from_one (sin : Q -> Q)
    (p p' : Pi0Model.state) (o o' : OpenVLAModel.state)
    (checkpoint_path : option string) (dev : string)
    (obs : Observation) (obss : list Observation) (w : World) :
  Pi0Model._loaded p = false ->
  OpenVLAModel._loaded o = false ->
  (exists chunks,
     returned ((Pi0Model.load checkpoint_path dev ;;
                consecutive (Pi0Model.predict sin) obss) p w) = Some chunks /\
     map sequence_number chunks = count_from 1 (List.length obss)) /\
  (exists chunk,
     returned ((Pi0Model.unload ;; Pi0Model.load checkpoint_path dev ;;
                Pi0Model.predict sin obs) p' w) = Some chunk /\
     sequence_number chunk = 1%Z) /\
  (exists chunks,
     returned ((OpenVLAModel.load checkpoint_path dev ;;
                consecutive OpenVLAModel.predict obss) o w) = Some chunks /\
     map sequence_number chunks = count_from 1 (List.length obss)) /\
  (exists chunk,
     returned ((OpenVLAModel.unload ;; OpenVLAModel.load checkpoint_path dev ;;
                OpenVLAModel.predict obs) o' w) = Some chunk /\
     sequence_number chunk = 1%Z).
Proof.
  intros Lp Lo. split; [| split; [| split]].
  - destruct (pi0_load_result p checkpoint_path dev w) as (p1 & w1 & E & L & C).
    destruct (consecutive_counts _ _ _ _ _ (pi0_call_counts sin) obss p1 w1 L)
      as (chunks & p2 & w2 & E2 & N & _).
    exists chunks. cbn [bind Monad_M]. rewrite E, E2. split; [reflexivity|].
    rewrite N, (C Lp). reflexivity.
  - destruct (pi0_unload_result p' w) as (p0 & E0 & L0).
    destruct (pi0_load_result p0 checkpoint_path dev w) as (p1 & w1 & E & L & C).
    destruct (pi0_call_counts sin p1 obs w1 L) as (chunk & p2 & w2 & E2 & N & _).
    exists chunk. cbn [bind Monad_M]. rewrite E0, E, E2. split; [reflexivity|].
    rewrite N, (C L0). reflexivity.
  - destruct (openvla_load_result o checkpoint_path dev w) as (o1 & w1 & E & L & C).
    destruct (consecutive_counts _ _ _ _ _ openvla_call_counts obss o1 w1 L)
      as (chunks & o2 & w2 & E2 & N & _).
    exists chunks. cbn [bind Monad_M]. rewrite E, E2. split; [reflexivity|].
    rewrite N, (C Lo). reflexivity.
  - destruct (openvla_unload_result o' w) as (o0 & E0 & L0).
    destruct (openvla_load_result o0 checkpoint_path dev w) as (o1 & w1 & E & L & C).
    destruct (openvla_call_counts o1 obs w1 L) as (chunk & o2 & w2 & E2 & N & _).
    exists chunk. cbn [bind Monad_M]. rewrite E0, E, E2. split; [reflexivity|].
    rewrite N, (C L0). reflexivity.
Qed.

Lemma sequence_numbers_count_from_one_witness :
  exists chunks,
    returned ((OpenVLAModel.load None "cpu" ;;
               consecutive OpenVLAModel.predict
                 [sample_observation; sample_observation; sample_observation])
                OpenVLAModel.init steady_world) = Some chunks /\
    map sequence_number chunks = [1; 2; 3]%Z.
Proof.
  exact (proj1 (proj2 (proj2
           (sequence_numbers_count_from_one sin_approx
              Pi0Model.init Pi0Model.init OpenVLAModel.init OpenVLAModel.init
              None "cpu" sample_observation
              [sample_observation; sample_observation; sample_observation]
              steady_world eq_refl eq_refl)))).
Defined.


(** ** Clamping *)

Lemma clamp_range (lo hi x : Q) : lo <= hi -> lo <= Py.clamp lo hi x <= hi.
Proof.
  intros H. unfold Py.clamp. split.
  - apply Q.le_max_l.
  - apply Q.max_lub; [exact H | apply Q.le_min_l].
Qed.

Lemma clamp_cases (lo hi x : Q) :
  lo <= hi ->
  (x <= lo /\ Py.clamp lo hi x == lo) \/
  (lo <= x <= hi /\ Py.clamp lo hi x == x) \/
  (hi <= x /\ Py.clamp lo hi x == hi).
Proof.
  intros H. unfold Py.clamp.
  destruct (Q.min_spec hi x) as [[A B] | [A B]];
    destruct (Q.max_spec lo (Qmin hi x)) as [[C D] | [C D]];
    rewrite D; rewrite B in *.
  - right; right. split; [lra | reflexivity].
  - right; right. split; [lra | lra].
  - right; left. split; [lra | reflexivity].
  - left. split; [lra | reflexivity].
Qed.

(** Clamping a move that starts inside the range does not lengthen it. *)
Lemma clamp_move (c d e : Q) :
  -1 <= c <= 1 -> - e <= d <= e ->
  Qabs (Py.clamp (-1) 1 (c + d) - c) <= e.
Proof.
  intros Hc Hd. apply Qabs_Qle_condition.
  destruct (clamp_cases (-1) 1 (c + d)) as [[A B] | [[A B] | [A B]]];
    [lra | | |]; rewrite B; lra.
Qed.

Lemma sin_approx_range (x : Q) : -1 <= sin_approx x <= 1.
Proof. unfold sin_approx. apply clamp_range. lra. Qed.

(** ** The smooth generator *)

Section Smooth.

Variable sin : Q -> Q.
Hypothesis sin_range : forall x, -1 <= sin x <= 1.

Lemma pi0_joints_in_range (phase : Q) (current : list Q) : forall j,
  Forall joint_ok (Pi0Model.joints_loop sin phase j current).
Proof.
  induction current as [| c rest IH]; intros j; cbn [Pi0Model.joints_loop].
  - constructor.
  - constructor; [apply clamp_range; lra | apply IH].
Qed.

Lemma pi0_joints_close (phase : Q) (current : list Q) : forall j,
  Forall joint_ok current ->
  close_joints 0.2 current (Pi0Model.joints_loop sin phase j current).
Proof.
  induction current as [| c rest IH]; intros j H; cbn [Pi0Model.joints_loop].
  - constructor.
  - inversion H as [| ? ? Hc Hrest]; subst. constructor; [| apply IH; exact Hrest].
    apply Qle_lt_trans with (y := 0.02); [| lra].
    apply clamp_move; [exact Hc|].
    pose proof (sin_range (phase + inject_Z (Z.of_nat j) * 0.5)). lra.
Qed.

Lemma pi0_steps_spec (counter : Z) (base : Q) (indices : list nat) :
  forall k0 current acts final,
  indices = seq k0 (List.length indices) ->
  Pi0Model.steps_loop sin counter base 0.02 indices current = (acts, final) ->
  List.length acts = List.length indices /\
  Forall action_ok acts /\
  (Forall joint_ok current -> smooth_after 0.2 current acts) /\
  stamped_from base k0 acts.
Proof.
  induction indices as [| i later IH]; intros k0 current acts final Hseq E;
    cbn [Pi0Model.steps_loop] in E.
  - injection E as <- <-. cbn. repeat split; auto.
  - destruct (Pi0Model.steps_loop sin counter base 0.02 later _) as [acts' final'] eqn:E'.
    injection E as <- <-.
    cbn [List.length seq] in Hseq. injection Hseq as -> Hseq.
    destruct (IH _ _ _ _ Hseq E') as (Len & Ok' & Sm & St).
    split; [cbn; rewrite Len; reflexivity|].
    split; [| split].
    + constructor; [| exact Ok']. split; cbn.
      * apply pi0_joints_in_range.
      * apply clamp_range. lra.
    + intros Hc. cbn. split.
      * apply pi0_joints_close. exact Hc.
      * apply Sm. apply pi0_joints_in_range.
    + cbn. split; [reflexivity | exact St].
Qed.

Lemma pi0_steps_smooth (counter : Z) (base : Q) (indices : list nat)
    (k0 : nat) (current : list Q) (acts : list Action) (final : list Q) :
  indices = seq k0 (List.length indices) ->
  Pi0Model.steps_loop sin counter base 0.02 indices current = (acts, final) ->
  smooth 0.2 acts.
Proof.
  destruct indices as [| i later]; intros Hseq E; cbn [Pi0Model.steps_loop] in E.
  - injection E as <- <-. exact I.
  - destruct (Pi0Model.steps_loop sin counter base 0.02 later _) as [acts' final'] eqn:E'.
    injection E as <- <-. cbn [List.length seq] in Hseq. injection Hseq as -> Hseq.
    cbn [smooth joint_commands].
    apply (pi0_steps_spec _ _ _ _ _ _ _ Hseq E'). apply pi0_joints_in_range.
Qed.

(** What a call on a loaded pi0 instance guarantees about its chunk. *)
Lemma pi0_call_spec (self : Pi0Model.state) obs w :
  Pi0Model._loaded self = true ->
  exists chunk self' w',
    Pi0Model.predict sin obs self w = (Ok chunk, self', w') /\
    sequence_number chunk = (Pi0Model._sequence_counter self + 1)%Z /\
    Pi0Model._loaded self' = true /\
    Pi0Model._sequence_counter self' = (Pi0Model._sequence_counter self + 1)%Z /\
    pi0_chunk_ok obs chunk.
Proof.
  intros L. destruct (pi0_predict_loaded sin self obs w L)
    as (acts & current & conf & time & w' & E1 & E).
  rewrite E. do 3 eexists. split; [reflexivity|]. repeat split; cbn [actions].
  - rewrite (proj1 (pi0_steps_spec _ _ _ 0%nat _ _ _ eq_refl E1)). reflexivity.
  - apply (pi0_steps_spec _ _ _ 0%nat _ _ _ eq_refl E1).
  - apply (pi0_steps_smooth _ _ _ 0%nat _ _ _ eq_refl E1).
  - apply (pi0_steps_spec _ _ _ 0%nat _ _ _ eq_refl E1).
Qed.

End Smooth.

(** C3.  On a loaded pi0 instance, for every observation and whatever the
    random source gives, [predict] returns a chunk of exactly 16 actions
    whose joint commands all lie in [-1, 1] and whose gripper commands all
    lie in [0, 1], and each joint command differs from the same joint of
    the action before it by less than 0.2. *)
Theorem pi0_predict_smooth_and_bounded (sin : Q -> Q)
    (sin_range : forall x, -1 <= sin x <= 1)
    (self : Pi0Model.state) (obs : Observation) (w : World) :
  Pi0Model._loaded self = true ->
  exists chunk self' w',
    Pi0Model.predict sin obs self w = (Ok chunk, self', w') /\
    List.length (actions chunk) = 16%nat /\
    Forall (fun a => Forall (fun x => -1 <= x <= 1) (joint_commands a) /\
                     0 <= gripper_command a <= 1) (actions chunk) /\
    smooth 0.2 (actions chunk).
Proof.
  intros L.
  destruct (pi0_call_spec sin sin_range self obs w L)
    as (chunk & self' & w' & E & _ & _ & _ & Len & Ok' & Sm & _).
  exists chunk, self', w'. repeat split; assumption.
Qed.

Lemma pi0_predict_smooth_and_bounded_witness :
  exists chunk self' w',
    Pi0Model.predict sin_approx sample_observation
      (fields_after (Pi0Model.load None "cpu" Pi0Model.init steady_world))
      steady_world = (Ok chunk, self', w') /\
    List.length (actions chunk) = 16%nat /\
    Forall (fun a => Forall (fun x => -1 <= x <= 1) (joint_commands a) /\
                     0 <= gripper_command a <= 1) (actions chunk) /\
    smooth 0.2 (actions chunk).
Proof.
  apply (pi0_predict_smooth_and_bounded sin_approx sin_approx_range). reflexivity.
Defined.

(** ** The random source *)

Lemma random_range (w : World) : 0 <= fst (random w) <= 1.
Proof.
  unfold random. cbn [fst].
  pose proof (Z.mod_pos_bound (rng_out w (rng_pos w)) (2 ^ 53) eq_refl) as [Lo Hi].
  unfold Qle. cbn [Qnum Qden]. change (Z.pos (2 ^ 53)) with (2 ^ 53)%Z.
  split; lia.
Qed.

Lemma uniform_range (a b : Q) (w : World) :
  a <= b -> a <= fst (uniform a b w) <= b.
Proof.
  intros H. unfold uniform. cbn [bind ret Monad_Rand].
  pose proof (random_range w) as [Lo Hi].
  destruct (random w) as [u w']. cbn [fst] in *.
  assert (0 <= (b - a) * u) by (apply Qmult_le_0_compat; lra).
  assert ((b - a) * u <= (b - a) * 1) by (apply Qmult_le_compat_nonneg; lra).
  lra.
Qed.

(** ** The target-tracking generator *)

Lemma toward_moves (curr tgt step_size : Q) :
  0 <= step_size ->
  moves_toward curr tgt step_size (OpenVLAModel.toward curr tgt step_size).
Proof.
  intros Hs. unfold moves_toward, OpenVLAModel.toward, OpenVLAModel.Qgtb.
  destruct (tgt ?= curr) eqn:C;
    [apply Qeq_alt in C | apply Qlt_alt in C | apply Qgt_alt in C].
  1, 2: destruct (Q.max_spec tgt (curr - step_size)) as [[A B] | [A B]].
  5: destruct (Q.min_spec tgt (curr + step_size)) as [[A B] | [A B]].
  all: rewrite B; split; intros H; try lra;
    (split; [lra | split; [lra | first [left; lra | right; lra]]]).
Qed.

Lemma uniform_draw (a b : Q) (w : World) (x : Q) (w' : World) :
  a <= b -> uniform a b w = (x, w') -> a <= x <= b.
Proof.
  intros H E. pose proof (uniform_range a b w H) as R. rewrite E in R. exact R.
Qed.

Lemma openvla_joints_spec (pairs : list (Q * Q)) : forall w jc w',
  OpenVLAModel.joints_loop pairs w = (jc, w') ->
  Forall2 (fun ct new => tracks (fst ct) (snd ct) new) pairs jc /\
  Forall joint_ok jc.
Proof.
  induction pairs as [| [c t] rest IH]; intros w jc w' E;
    cbn [OpenVLAModel.joints_loop bind ret Monad_Rand] in E.
  - injection E as <- <-. split; constructor.
  - destruct (uniform (-0.02) 0.02 w) as [wobble w1] eqn:U1.
    destruct (uniform (-0.01) 0.01 w1) as [noise w2] eqn:U2.
    destruct (OpenVLAModel.joints_loop rest w2) as [rest' w3] eqn:R.
    injection E as <- <-.
    apply uniform_draw in U1; [| lra]. apply uniform_draw in U2; [| lra].
    destruct (IH _ _ _ R) as [T J].
    split; constructor; auto.
    + exists (0.05 + wobble), noise, (OpenVLAModel.toward c t (0.05 + wobble)).
      cbn [fst snd]. split; [split; lra|]. split; [split; lra|].
      split; [apply toward_moves; lra | reflexivity].
    + apply clamp_range. lra.
Qed.

Lemma combine_overwrite (target : list Q) (jc : list Q) : forall current,
  List.length jc = List.length (combine current target) ->
  combine (OpenVLAModel.overwrite current jc) target = combine jc target /\
  List.length (OpenVLAModel.overwrite current jc) = List.length current.
Proof.
  unfold OpenVLAModel.overwrite. revert target.
  induction jc as [| x jc IH]; intros target current H.
  - cbn [List.length] in H. symmetry in H. apply length_zero_iff_nil in H.
    cbn. rewrite H. split; reflexivity.
  - destruct current as [| c cs]; [discriminate H|].
    destruct target as [| t ts]; [discriminate H|].
    cbn in H. injection H as H. destruct (IH ts cs H) as [A B].
    cbn. rewrite A, B. split; reflexivity.
Qed.

Lemma last_nonempty {A : Type} (l : list A) : forall x d d',
  last (x :: l) d = last (x :: l) d'.
Proof.
  induction l as [| y l IH]; intros x d d'; [reflexivity|].
  change (last (y :: l) d = last (y :: l) d'). apply IH.
Qed.

Lemma openvla_steps_spec (history : list (list Q)) (obs : Observation)
    (base : Q) (target : list Q) (indices : list nat) :
  forall k0 current gripper w acts final final_gripper w',
  indices = seq k0 (List.length indices) ->
  OpenVLAModel.steps_loop history obs base 0.02 target indices current gripper w
    = (acts, final, final_gripper, w') ->
  List.length acts = List.length indices /\
  Forall action_ok acts /\
  tracking target current acts /\
  stamped_from base k0 acts /\
  Forall (blend_step (OpenVLAModel.gripper_start history) (OpenVLAModel.gripper_goal obs))
    (map gripper_command acts) /\
  List.length final = List.length current /\
  final_gripper = last (map gripper_command acts) gripper.
Proof.
  induction indices as [| i later IH];
    intros k0 current gripper w acts final final_gripper w' Hseq E;
    cbn [OpenVLAModel.steps_loop bind ret Monad_Rand] in E.
  - injection E as <- <- <- <-. cbn. repeat split; auto.
  - destruct (OpenVLAModel.joints_loop (combine current target) w) as [jc w1] eqn:J.
    destruct (uniform (-0.05) 0.05 w1) as [noise w2] eqn:U.
    destruct (OpenVLAModel.steps_loop history obs base 0.02 target later _ _ w2)
      as [[[acts' final'] fg'] w3] eqn:E'.
    injection E as <- <- <- <-.
    cbn [List.length seq] in Hseq. injection Hseq as -> Hseq.
    destruct (IH _ _ _ _ _ _ _ _ Hseq E') as (Len & Ok' & Tr & St & Bl & Fl & Fg).
    destruct (openvla_joints_spec _ _ _ _ J) as [T Jok].
    destruct (combine_overwrite target jc current (eq_sym (Forall2_length T))) as [CO LO].
    apply uniform_draw in U; [| lra].
    split; [cbn; rewrite Len; reflexivity|].
    split; [| split; [| split; [| split; [| split]]]].
    + constructor; [| exact Ok']. split; cbn; [exact Jok | apply clamp_range; lra].
    + cbn [tracking joint_commands]. split; [exact T|].
      clear - Tr CO. revert Tr. generalize (OpenVLAModel.overwrite current jc) CO.
      intros cur' CO'. destruct acts' as [| a rest]; [trivial|].
      cbn [tracking]. unfold joints_track. rewrite CO'. trivial.
    + cbn. split; [reflexivity | exact St].
    + cbn [map]. constructor; [| exact Bl]. exists noise. cbn. split; [lra | reflexivity].
    + rewrite Fl. exact LO.
    + rewrite Fg. cbn [map gripper_command]. destruct acts' as [| a rest]; [reflexivity|].
      cbn [map].
      transitivity (last (gripper_command a :: map gripper_command rest) gripper);
        [apply last_nonempty | reflexivity].
Qed.

(** What a call on a loaded OpenVLA instance guarantees about its chunk. *)
Lemma openvla_call_spec (self : OpenVLAModel.state) obs w :
  OpenVLAModel._loaded self = true ->
  exists chunk self' w',
    OpenVLAModel.predict obs self w = (Ok chunk, self', w') /\
    sequence_number chunk = (OpenVLAModel._sequence_counter self + 1)%Z /\
    OpenVLAModel._loaded self' = true /\
    OpenVLAModel._sequence_counter self' = (OpenVLAModel._sequence_counter self + 1)%Z /\
    openvla_chunk_ok obs chunk.
Proof.
  intros L. destruct (openvla_predict_loaded self obs w L)
    as (w1 & target & w2 & acts & current & gripper & w3 & conf & time & w' & _ & E1 & E).
  rewrite E. do 3 eexists. split; [reflexivity|].
  destruct (openvla_steps_spec _ _ _ _ _ 0%nat _ _ _ _ _ _ _ eq_refl E1)
    as (Len & Ok' & _ & St & _).
  repeat split; cbn [actions]; assumption.
Qed.

(** ** Batches *)

Lemma pi0_predict_each_consecutive sin (obss : list Observation) : forall self w,
  Pi0Model.predict_each sin obss self w = consecutive (Pi0Model.predict sin) obss self w.
Proof.
  induction obss as [| obs rest IH]; intros self w; [reflexivity|].
  cbn [Pi0Model.predict_each consecutive bind Monad_M].
  destruct (Pi0Model.predict sin obs self w) as [[[chunk | e] self'] w']; [| reflexivity].
  rewrite IH. reflexivity.
Qed.

Lemma openvla_predict_each_consecutive (obss : list Observation) : forall self w,
  OpenVLAModel.predict_each obss self w = consecutive OpenVLAModel.predict obss self w.
Proof.
  induction obss as [| obs rest IH]; intros self w; [reflexivity|].
  cbn [OpenVLAModel.predict_each consecutive bind Monad_M].
  destruct (OpenVLAModel.predict obs self w) as [[[chunk | e] self'] w']; [| reflexivity].
  rewrite IH. reflexivity.
Qed.

(** C5.  On a loaded pi0 or OpenVLA instance, [predict_batch] on a list of
    K observations does what K [predict] calls in list order do: it returns
    K chunks, the i-th chunk is the one the i-th call returns for the i-th
    observation (its actions carry that observation's time stamps), each
    chunk has the stub's chunk length with joint commands in [-1, 1] and
    gripper commands in [0, 1] (and, for pi0, steps below 0.2), and the
    sequence numbers continue the counter in list order. *)
Theorem predict_batch_is_sequential (sin : Q -> Q)
    (sin_range : forall x, -1 <= sin x <= 1)
    (p : Pi0Model.state) (o : OpenVLAModel.state)
    (obss : list Observation) (w : World) :
  Pi0Model._loaded p = true ->
  OpenVLAModel._loaded o = true ->
  (exists chunks p' w',
     Pi0Model.predict_batch sin obss p w = (Ok chunks, p', w') /\
     consecutive (Pi0Model.predict sin) obss p w = (Ok chunks, p', w') /\
     List.length chunks = List.length obss /\
     Forall2 pi0_chunk_ok obss chunks /\
     map sequence_number chunks =
       count_from (Pi0Model._sequence_counter p + 1) (List.length obss)) /\
  (exists chunks o' w',
     OpenVLAModel.predict_batch obss o w = (Ok chunks, o', w') /\
     consecutive OpenVLAModel.predict obss o w = (Ok chunks, o', w') /\
     List.length chunks = List.length obss /\
     Forall2 openvla_chunk_ok obss chunks /\
     map sequence_number chunks =
       count_from (OpenVLAModel._sequence_counter o + 1) (List.length obss)).
Proof.
  intros Lp Lo. split.
  - destruct (consecutive_counts _ _ _ _ _ (pi0_call_spec sin sin_range) obss p w Lp)
      as (chunks & p' & w' & E & N & _ & _ & P).
    exists chunks, p', w'.
    unfold Pi0Model.predict_batch. cbn [bind Monad_M].
    rewrite (check_loaded_loaded _ _ _ _ Lp), pi0_predict_each_consecutive.
    repeat split; auto. symmetry. exact (Forall2_length P).
  - destruct (consecutive_counts _ _ _ _ _ openvla_call_spec obss o w Lo)
      as (chunks & o' & w' & E & N & _ & _ & P).
    exists chunks, o', w'.
    unfold OpenVLAModel.predict_batch. cbn [bind Monad_M].
    rewrite (check_loaded_loaded _ _ _ _ Lo), openvla_predict_each_consecutive.
    repeat split; auto. symmetry. exact (Forall2_length P).
Qed.

Lemma predict_batch_is_sequential_witness :
  let p := fields_after (Pi0Model.load None "cpu" Pi0Model.init steady_world) in
  let obss := [sample_observation; sample_observation] in
  exists chunks p' w',
    Pi0Model.predict_batch sin_approx obss p steady_world = (Ok chunks, p', w') /\
    consecutive (Pi0Model.predict sin_approx) obss p steady_world = (Ok chunks, p', w') /\
    List.length chunks = 2%nat /\
    Forall2 pi0_chunk_ok obss chunks /\
    map sequence_number chunks = [1; 2]%Z.
Proof.
  exact (proj1 (predict_batch_is_sequential sin_approx sin_approx_range
                  (fields_after (Pi0Model.load None "cpu" Pi0Model.init steady_world))
                  (fields_after (OpenVLAModel.load None "cpu" OpenVLAModel.init
                                   steady_world))
                  [sample_observation; sample_observation] steady_world
                  eq_refl eq_refl)).
Defined.
(** ** Joints of the target-tracking stub *)

Lemma perturb_spec (base : list Q) : forall w target w',
  OpenVLAModel.perturb base w = (target, w') ->
  Forall2 (fun b t => b - 0.1 <= t <= b + 0.1) base target.
Proof.
  induction base as [| b rest IH]; intros w target w' E;
    cbn [OpenVLAModel.perturb bind ret Monad_Rand] in E.
  - injection E as <- <-. constructor.
  - destruct (uniform (-0.1) 0.1 w) as [noise w1] eqn:U.
    destruct (OpenVLAModel.perturb rest w1) as [rest' w2] eqn:R.
    injection E as <- <-. apply uniform_draw in U; [| lra].
    constructor; [lra | exact (IH _ _ _ R)].
Qed.

Lemma target_base_length (instruction : string) :
  List.length (OpenVLAModel.target_base instruction) = 6%nat.
Proof.
  unfold OpenVLAModel.target_base.
  repeat match goal with |- context [if ?c then _ else _] => destruct c end; reflexivity.
Qed.

Lemma tracking_joint_count (target : list Q) (acts : list Action) : forall previous,
  List.length target = 6%nat ->
  (6 <= List.length previous)%nat ->
  tracking target previous acts ->
  Forall (fun a => List.length (joint_commands a) = 6%nat) acts.
Proof.
  induction acts as [| a rest IH]; intros previous Ht Hp T; [constructor|].
  destruct T as [J T]. apply Forall2_length in J. rewrite length_combine in J.
  assert (List.length (joint_commands a) = 6%nat) by lia.
  constructor; [assumption|]. apply (IH (joint_commands a)); [assumption | lia | exact T].
Qed.

(** C9.  On a loaded OpenVLA instance [predict] fixes one target per call,
    each entry within 0.1 of the keyword's base pose, and returns 8 actions.
    At every step each joint is obtained from its value at the step before
    (at the first step: from the stored entry, or from the observation when
    nothing is stored) by a move toward its target of one step, a length of
    0.05 give or take 0.02: the move is never longer than the step, and it
    is the full step unless the target is nearer, in which case it ends on
    the target instead of passing it.  Noise of at most 0.01 is added and
    the result clamped to [-1, 1].  Six joints are commanded as soon as the
    starting point has six entries. *)
Theorem openvla_joints_step_toward_target
    (self : OpenVLAModel.state) (obs : Observation) (w : World) :
  OpenVLAModel._loaded self = true ->
  let start :=
    match OpenVLAModel._action_history self with
    | [] => initial_joints obs
    | _ :: _ => last (OpenVLAModel._action_history self) []
    end in
  exists chunk self' w' target,
    OpenVLAModel.predict obs self w = (Ok chunk, self', w') /\
    Forall2 (fun b t => b - 0.1 <= t <= b + 0.1)
      (OpenVLAModel.target_base (Py.lower (language_instruction obs))) target /\
    List.length (actions chunk) = 8%nat /\
    tracking target start (actions chunk) /\
    Forall (fun a => Forall (fun x => -1 <= x <= 1) (joint_commands a)) (actions chunk) /\
    ((6 <= List.length start)%nat ->
     Forall (fun a => List.length (joint_commands a) = 6%nat) (actions chunk)).
Proof.
  intros L start. destruct (openvla_predict_loaded self obs w L)
    as (w1 & target & w2 & acts & current & gripper & w3 & conf & time & w' & T & E1 & E).
  rewrite E. do 3 eexists. exists target. split; [reflexivity|].
  destruct (openvla_steps_spec _ _ _ _ _ 0%nat _ _ _ _ _ _ _ eq_refl E1)
    as (Len & Ok' & Tr & _).
  apply perturb_spec in T. cbn [actions].
  split; [exact T|]. split; [exact Len|]. split; [exact Tr|]. split.
  - apply Forall_impl with (2 := Ok'). intros a [J _]. exact J.
  - intros Hs. apply (tracking_joint_count target acts start); auto.
    apply Forall2_length in T. rewrite <- T. apply target_base_length.
Qed.

Lemma openvla_joints_step_toward_target_witness :
  exists chunk self' w' target,
    OpenVLAModel.predict sample_observation
      (fields_after (OpenVLAModel.load None "cpu" OpenVLAModel.init steady_world))
      steady_world = (Ok chunk, self', w') /\
    Forall2 (fun b t => b - 0.1 <= t <= b + 0.1)
      (OpenVLAModel.target_base (Py.lower (language_instruction sample_observation)))
      target /\
    List.length (actions chunk) = 8%nat /\
    tracking target (initial_joints sample_observation) (actions chunk) /\
    Forall (fun a => Forall (fun x => -1 <= x <= 1) (joint_commands a)) (actions chunk) /\
    ((6 <= List.length (initial_joints sample_observation))%nat ->
     Forall (fun a => List.length (joint_commands a) = 6%nat) (actions chunk)).
Proof.
  exact (openvla_joints_step_toward_target
           (fields_after (OpenVLAModel.load None "cpu" OpenVLAModel.init steady_world))
           sample_observation steady_world eq_refl).
Defined.

(** ** Gripper of the target-tracking stub *)

Lemma gripper_start_lookup (history : list (list Q)) :
  OpenVLAModel.gripper_start history = nth 6 (last history []) 0.5.
Proof.
  unfold OpenVLAModel.gripper_start, OpenVLAModel.last_entry.
  destruct history as [| e rest]; [reflexivity|].
  destruct (Nat.ltb_spec 6 (List.length (last (e :: rest) []))) as [H | H];
    [reflexivity|].
  symmetry. apply nth_overflow. exact H.
Qed.

(** C8, as the code has it.  On a loaded OpenVLA instance every gripper
    command of a chunk is one update away from the same starting value: the
    value at index 6 of the last history entry, 0.5 when there is none.
    The update goes 15% of the way to the goal (1 if the lower-cased
    instruction contains "pick", else 0), adds noise of at most 0.05 and
    clamps to [0, 1]. *)
Theorem openvla_gripper_single_blend
    (self : OpenVLAModel.state) (obs : Observation) (w : World) :
  OpenVLAModel._loaded self = true ->
  exists chunk self' w',
    OpenVLAModel.predict obs self w = (Ok chunk, self', w') /\
    Forall (fun a =>
              blend_step (nth 6 (last (OpenVLAModel._action_history self) []) 0.5)
                (if Py.str_in "pick" (Py.lower (language_instruction obs))
                 then 1.0 else 0.0)
                (gripper_command a) /\
              0 <= gripper_command a <= 1)
      (actions chunk).
Proof.
  intros L. destruct (openvla_predict_loaded self obs w L)
    as (w1 & target & w2 & acts & current & gripper & w3 & conf & time & w' & _ & E1 & E).
  rewrite E. do 3 eexists. split; [reflexivity|]. cbn [actions].
  destruct (openvla_steps_spec _ _ _ _ _ 0%nat _ _ _ _ _ _ _ eq_refl E1)
    as (_ & Ok' & _ & _ & Bl & _).
  rewrite gripper_start_lookup in Bl. rewrite Forall_map in Bl.
  rewrite Forall_forall in *. intros a Ha. split; [exact (Bl a Ha)|].
  exact (proj2 (Ok' a Ha)).
Qed.

Lemma openvla_gripper_single_blend_witness :
  exists chunk self' w',
    OpenVLAModel.predict sample_observation
      (fields_after (OpenVLAModel.load None "cpu" OpenVLAModel.init steady_world))
      steady_world = (Ok chunk, self', w') /\
    Forall (fun a => blend_step 0.5 1.0 (gripper_command a) /\
                     0 <= gripper_command a <= 1)
      (actions chunk).
Proof.
  exact (openvla_gripper_single_blend
           (fields_after (OpenVLAModel.load None "cpu" OpenVLAModel.init steady_world))
           sample_observation steady_world eq_refl).
Defined.

(** C8, as the spec words it, fails.  On a freshly loaded OpenVLA instance,
    with the fixture's observation ("pick up the red cup") and a generator
    that makes every noise term 0, the eight gripper commands of the first
    chunk are all 0.575: the second is not one update away from the first
    (that would be 0.63875 give or take 0.05), so the values do not approach
    the goal step by step. *)
Lemma openvla_gripper_not_exponential :
  exists chunk self' w',
    OpenVLAModel.predict sample_observation
      (fields_after (OpenVLAModel.load None "cpu" OpenVLAModel.init steady_world))
      steady_world = (Ok chunk, self', w') /\
    Forall (fun a => gripper_command a == 0.575) (actions chunk) /\
    ~ exponential_approach 0.5 1.0 (map gripper_command (actions chunk)).
Proof.
  destruct (OpenVLAModel.predict sample_observation _ steady_world) as [[r s] w'] eqn:E.
  vm_compute in E. injection E as <- <- <-.
  do 3 eexists. split; [reflexivity|].
  cbn [actions map gripper_command exponential_approach]. split.
  - repeat constructor.
  - intros (_ & (noise & Hn & Hg) & _).
    match type of Hg with
    | _ == Py.clamp 0 1 ?x =>
        destruct (clamp_cases 0 1 x) as [[A B] | [[A B] | [A B]]]; [lra | | |];
          rewrite B in Hg; lra
    end.
Qed.


(** ** History of the target-tracking stub *)

Lemma initial_joints_length (obs : Observation) :
  List.length (initial_joints obs) = 6%nat.
Proof.
  unfold initial_joints.
  destruct (Nat.ltb_spec (List.length (map (Py.clamp (-1) 1)
                                         (firstn 6 (joint_positions obs)))) 6) as [H | H].
  - rewrite length_app, repeat_length. lia.
  - rewrite length_map, length_firstn in *. lia.
Qed.

Lemma push_history_spec (history : list (list Q)) (entry : list Q) :
  last (OpenVLAModel.push_history history entry) [] = entry /\
  OpenVLAModel.push_history history entry <> [] /\
  ((List.length history <= 10)%nat ->
   (List.length (OpenVLAModel.push_history history entry) <= 10)%nat).
Proof.
  unfold OpenVLAModel.push_history.
  destruct (Nat.ltb_spec 10 (List.length (history ++ [entry]))) as [H | H];
    rewrite length_app in H; cbn [List.length] in H.
  - destruct history as [| e0 rest]; [cbn in H; lia|].
    cbn [app tl]. destruct rest as [| e1 rest']; [cbn in H; lia|].
    split; [apply last_last|]. split; [discriminate|].
    intros B. rewrite length_app. cbn [List.length] in *. lia.
  - split; [apply last_last|]. split.
    + destruct history; discriminate.
    + intros _. rewrite length_app. cbn [List.length]. lia.
Qed.

(** Each call starts from one value more than the call before it. *)
Lemma openvla_predict_history (self : OpenVLAModel.state) obs w :
  OpenVLAModel._loaded self = true ->
  exists chunk self' w',
    OpenVLAModel.predict obs self w = (Ok chunk, self', w') /\
    OpenVLAModel._loaded self' = true /\
    OpenVLAModel._action_history self' <> [] /\
    start_length (OpenVLAModel._action_history self') =
      S (start_length (OpenVLAModel._action_history self)) /\
    ((List.length (OpenVLAModel._action_history self) <= 10)%nat ->
     (List.length (OpenVLAModel._action_history self') <= 10)%nat).
Proof.
  intros L. destruct (openvla_predict_loaded self obs w L)
    as (w1 & target & w2 & acts & current & gripper & w3 & conf & time & w' & _ & E1 & E).
  rewrite E. do 3 eexists. split; [reflexivity|]. cbn [OpenVLAModel._loaded
    OpenVLAModel._action_history].
  destruct (openvla_steps_spec _ _ _ _ _ 0%nat _ _ _ _ _ _ _ eq_refl E1)
    as (_ & _ & _ & _ & _ & Fl & _).
  destruct (push_history_spec (OpenVLAModel._action_history self) (current ++ [gripper]))
    as (La & Ne & Bd).
  split; [reflexivity|]. split; [exact Ne|]. split; [| exact Bd].
  unfold start_length at 1.
  destruct (OpenVLAModel.push_history _ _) as [| e rest] eqn:P; [contradiction|].
  rewrite La, length_app, Fl. cbn [List.length].
  unfold start_length, OpenVLAModel.last_entry.
  destruct (OpenVLAModel._action_history self); [rewrite initial_joints_length|]; lia.
Qed.

Lemma openvla_consecutive_history (obss : list Observation) : forall self w,
  OpenVLAModel._loaded self = true ->
  exists chunks self' w',
    consecutive OpenVLAModel.predict obss self w = (Ok chunks, self', w') /\
    start_length (OpenVLAModel._action_history self') =
      (start_length (OpenVLAModel._action_history self) + List.length obss)%nat /\
    (obss <> [] -> OpenVLAModel._action_history self' <> []) /\
    ((List.length (OpenVLAModel._action_history self) <= 10)%nat ->
     (List.length (OpenVLAModel._action_history self') <= 10)%nat).
Proof.
  induction obss as [| obs rest IH]; intros self w L.
  - exists [], self, w. cbn. repeat split; auto; try lia; try congruence.
  - destruct (openvla_predict_history self obs w L)
      as (chunk & s1 & w1 & E & L1 & Ne & Len & Bd).
    destruct (IH s1 w1 L1) as (chunks & s2 & w2 & E2 & Len2 & Ne2 & Bd2).
    exists (chunk :: chunks), s2, w2.
    cbn [consecutive bind Monad_M ret]. rewrite E, E2.
    split; [reflexivity|]. split; [rewrite Len2, Len; cbn [List.length]; lia|].
    split; [| auto]. intros _.
    destruct rest as [| obs' rest']; [| apply Ne2; discriminate].
    cbn in E2. injection E2 as _ <- _. exact Ne.
Qed.

(** The entry stored by the n-th call after [load] has 6 + n elements, and
    the history never holds more than ten entries. *)
Lemma openvla_last_entry_length (self : OpenVLAModel.state)
    (checkpoint_path : option string) (dev : string)
    (obs : Observation) (obss : list Observation) (w : World) :
  OpenVLAModel._loaded self = false ->
  let self' :=
    fields_after ((OpenVLAModel.load checkpoint_path dev ;;
                   consecutive OpenVLAModel.predict (obs :: obss)) self w) in
  List.length (last (OpenVLAModel._action_history self') []) =
    (7 + List.length obss)%nat /\
  (List.length (OpenVLAModel._action_history self') <= 10)%nat.
Proof.
  intros L self'. subst self'.
  unfold OpenVLAModel.load. cbn [bind Monad_M get_self]. rewrite L.
  cbn [bind Monad_M lift sleep set_self].
  match goal with
  | |- context [consecutive _ _ ?s ?w1] =>
      destruct (openvla_consecutive_history (obs :: obss) s w1 eq_refl)
        as (chunks & s2 & w2 & E & Len & Ne & Bd)
  end.
  rewrite E. cbn [fields_after fst snd].
  cbn [OpenVLAModel._action_history start_length List.length] in Len, Bd.
  specialize (Ne ltac:(discriminate)). specialize (Bd ltac:(lia)).
  split; [| exact Bd].
  unfold start_length in Len. destruct (OpenVLAModel._action_history s2); [contradiction|].
  rewrite Len. lia.
Qed.

(** C10, on the code.  After [load] and two [predict] calls on the fixture's
    observation, the history holds two entries, of 7 and of 8 elements: the
    second call started from the whole first entry, gripper included, and
    appended its own gripper to it.  Index 6 of the last entry still holds
    the gripper value of the first call (0.575), not the one the second
    call ended on (0.63875). *)
Lemma openvla_history_entry_grows :
  let run := (OpenVLAModel.load None "cpu" ;;
              first <- OpenVLAModel.predict sample_observation ;;
              second <- OpenVLAModel.predict sample_observation ;;
              ret (first, second)) OpenVLAModel.init steady_world in
  map (@List.length Q) (OpenVLAModel._action_history (fields_after run)) = [7; 8]%nat /\
  match returned run with
  | Some (first, second) =>
      OpenVLAModel.gripper_start (OpenVLAModel._action_history (fields_after run))
        == last (map gripper_command (actions first)) 0 /\
      last (map gripper_command (actions first)) 0 == 0.575 /\
      last (map gripper_command (actions second)) 0 == 0.63875
  | None => False
  end.
Proof.
  intros run.
  destruct run as [[r s] w'] eqn:E. vm_compute in E. injection E as <- <- <-.
  split; [reflexivity|]. cbn. repeat split; reflexivity.
Qed.

(** * Further properties of the model layer *)

(** ** Confidence *)

Lemma list_in_In (x : string) (xs : list string) :
  Py.list_in x xs = true <-> In x xs.
Proof.
  unfold Py.list_in. rewrite existsb_exists. split.
  - intros (y & I & E). apply String.eqb_eq in E. subst. exact I.
  - intros I. exists x. split; [exact I | apply String.eqb_refl].
Qed.

Lemma pi0_confidence_band (obs : Observation) (w : World) :
  let conf := fst (Pi0Model._calculate_confidence obs w) in
  (Py.list_in (embodiment_tag obs) Pi0Model.SUPPORTED_EMBODIMENTS = true ->
     0.84 < conf < 0.96) /\
  (Py.list_in (embodiment_tag obs) Pi0Model.SUPPORTED_EMBODIMENTS = false ->
     0.54 < conf < 0.66).
Proof.
  unfold Pi0Model._calculate_confidence. cbn [bind ret Monad_Rand].
  pose proof (uniform_range (-0.05) 0.05 w ltac:(lra)) as R.
  destruct (uniform (-0.05) 0.05 w) as [noise w1]. cbn [fst] in *.
  split; intros H; rewrite H;
    match goal with
    | |- _ < Py.clamp ?lo ?hi ?x < _ =>
        destruct (clamp_cases lo hi x) as [[A B] | [[A B] | [A B]]];
          [lra | | |]; rewrite B; lra
    end.
Qed.

Lemma openvla_confidence_band (obs : Observation) (w : World) :
  let conf := fst (OpenVLAModel._calculate_confidence obs w) in
  (Py.list_in (embodiment_tag obs) OpenVLAModel.SUPPORTED_EMBODIMENTS = true ->
     0.79 < conf < 0.91) /\
  (Py.list_in (embodiment_tag obs) OpenVLAModel.SUPPORTED_EMBODIMENTS = false ->
     0.49 < conf < 0.61).
Proof.
  unfold OpenVLAModel._calculate_confidence. cbn [bind ret Monad_Rand].
  pose proof (uniform_range (-0.05) 0.05 w ltac:(lra)) as R.
  destruct (uniform (-0.05) 0.05 w) as [noise w1]. cbn [fst] in *.
  split; intros H; rewrite H;
    match goal with
    | |- _ < Py.clamp ?lo ?hi ?x < _ =>
        destruct (clamp_cases lo hi x) as [[A B] | [[A B] | [A B]]];
          [lra | | |]; rewrite B; lra
    end.
Qed.

(** The confidence of a chunk is what [_calculate_confidence] answers for
    the observation of the call. *)
Lemma pi0_predict_confidence sin (self : Pi0Model.state) obs w :
  Pi0Model._loaded self = true ->
  exists w2 chunk self' w',
    Pi0Model.predict sin obs self w = (Ok chunk, self', w') /\
    confidence chunk = fst (Pi0Model._calculate_confidence obs w2) /\
    chunk_model_version chunk = Pi0Model.MODEL_VERSION.
Proof.
  intros H.
  unfold Pi0Model.predict, _check_loaded, Pi0Model._generate_smooth_actions.
  unfold lift.
  cbn [bind ret Monad_M get_self set_self raise]. rewrite H. cbn [negb].
  cbn [bind ret Monad_M get_self set_self raise perf_counter sleep].
  destruct (uniform _ _ w) as [latency w1] eqn:U.
  destruct (Pi0Model.steps_loop _ _ _ _ _ _) as [acts current] eqn:E.
  cbn [bind ret Monad_M get_self set_self raise perf_counter sleep].
  match goal with
  | |- context [Pi0Model._calculate_confidence obs ?w2] =>
      destruct (Pi0Model._calculate_confidence obs w2) as [conf w3] eqn:K;
      exists w2
  end.
  do 3 eexists. split; [reflexivity|]. rewrite K. split; reflexivity.
Qed.

Lemma openvla_predict_confidence (self : OpenVLAModel.state) obs w :
  OpenVLAModel._loaded self = true ->
  exists w2 chunk self' w',
    OpenVLAModel.predict obs self w = (Ok chunk, self', w') /\
    confidence chunk = fst (OpenVLAModel._calculate_confidence obs w2) /\
    chunk_model_version chunk = OpenVLAModel.MODEL_VERSION.
Proof.
  intros H.
  unfold OpenVLAModel.predict, _check_loaded, OpenVLAModel._generate_openvla_actions.
  unfold lift.
  cbn [bind ret Monad_M get_self set_self raise]. rewrite H. cbn [negb].
  cbn [bind ret Monad_M get_self set_self raise perf_counter sleep].
  destruct (uniform _ _ w) as [latency w1] eqn:U.
  destruct (OpenVLAModel._generate_target obs _) as [target wt] eqn:T.
  destruct (OpenVLAModel.steps_loop _ _ _ _ _ _ _ _ _) as [[[acts current] gripper] ws] eqn:E.
  cbn [bind ret Monad_M get_self set_self raise perf_counter sleep].
  match goal with
  | |- context [OpenVLAModel._calculate_confidence obs ?w2] =>
      destruct (OpenVLAModel._calculate_confidence obs w2) as [conf w3] eqn:K;
      exists w2
  end.
  do 3 eexists. split; [reflexivity|]. rewrite K. split; reflexivity.
Qed.

(** X1.  The confidence of a chunk follows the membership of the
    observation's embodiment tag in the stub's supported list: pi0 answers
    strictly between 0.84 and 0.96 for a listed tag and strictly between
    0.54 and 0.66 otherwise, OpenVLA strictly between 0.79 and 0.91 and
    between 0.49 and 0.61.  (The base value give or take the noise of 0.05,
    with a margin of 0.01 that also covers the rounding of the sums.)  So
    the clamps to [0.5, 1] and [0.4, 1] never cut, and a listed tag scores
    above an unlisted one. *)
Theorem confidence_bands (sin : Q -> Q)
    (p : Pi0Model.state) (o : OpenVLAModel.state) (obs : Observation) (w : World) :
  Pi0Model._loaded p = true ->
  OpenVLAModel._loaded o = true ->
  (exists chunk p' w',
     Pi0Model.predict sin obs p w = (Ok chunk, p', w') /\
     (In (embodiment_tag obs) Pi0Model.SUPPORTED_EMBODIMENTS ->
        0.84 < confidence chunk < 0.96) /\
     (~ In (embodiment_tag obs) Pi0Model.SUPPORTED_EMBODIMENTS ->
        0.54 < confidence chunk < 0.66)) /\
  (exists chunk o' w',
     OpenVLAModel.predict obs o w = (Ok chunk, o', w') /\
     (In (embodiment_tag obs) OpenVLAModel.SUPPORTED_EMBODIMENTS ->
        0.79 < confidence chunk < 0.91) /\
     (~ In (embodiment_tag obs) OpenVLAModel.SUPPORTED_EMBODIMENTS ->
        0.49 < confidence chunk < 0.61)).
Proof.
  intros Lp Lo. split.
  - destruct (pi0_predict_confidence sin p obs w Lp) as (w2 & chunk & p' & w' & E & C & _).
    exists chunk, p', w'. split; [exact E|]. rewrite C.
    destruct (pi0_confidence_band obs w2) as [Y N].
    split; intros H; [apply Y | apply N].
    + apply list_in_In. exact H.
    + destruct (Py.list_in _ _) eqn:D; [| reflexivity].
      apply list_in_In in D. contradiction.
  - destruct (openvla_predict_confidence o obs w Lo) as (w2 & chunk & o' & w' & E & C & _).
    exists chunk, o', w'. split; [exact E|]. rewrite C.
    destruct (openvla_confidence_band obs w2) as [Y N].
    split; intros H; [apply Y | apply N].
    + apply list_in_In. exact H.
    + destruct (Py.list_in _ _) eqn:D; [| reflexivity].
      apply list_in_In in D. contradiction.
Qed.

Lemma confidence_bands_witness :
  exists chunk p' w',
    Pi0Model.predict sin_approx sample_observation
      (fields_after (Pi0Model.load None "cpu" Pi0Model.init steady_world))
      steady_world = (Ok chunk, p', w') /\
    (In "unitree_h1" Pi0Model.SUPPORTED_EMBODIMENTS ->
       0.84 < confidence chunk < 0.96) /\
    (~ In "unitree_h1" Pi0Model.SUPPORTED_EMBODIMENTS ->
       0.54 < confidence chunk < 0.66).
Proof.
  exact (proj1 (confidence_bands sin_approx
                  (fields_after (Pi0Model.load None "cpu" Pi0Model.init steady_world))
                  (fields_after (OpenVLAModel.load None "cpu" OpenVLAModel.init
                                   steady_world))
                  sample_observation steady_world eq_refl eq_refl)).
Defined.

(** ** Continuity from one chunk to the next *)

Lemma last_cons_default {A : Type} (l : list A) (x d : A) :
  last (x :: l) d = last l x.
Proof.
  revert x d. induction l as [| y l IH]; intros x d; [reflexivity|].
  change (last (y :: l) d = last (y :: l) x). rewrite !IH. reflexivity.
Qed.

Lemma last_in_cons {A : Type} (l : list A) : forall x, In (last l x) (x :: l).
Proof.
  induction l as [| y l IH]; intros x; [left; reflexivity|].
  right. rewrite last_cons_default. apply IH.
Qed.

Lemma smooth_after_app (bound : Q) (first second : list Action) : forall previous,
  smooth_after bound previous first ->
  smooth_after bound (last (map joint_commands first) previous) second ->
  smooth_after bound previous (first ++ second).
Proof.
  induction first as [| a rest IH]; intros previous F S2; [exact S2|].
  destruct F as [C F]. cbn [app smooth_after]. split; [exact C|].
  apply IH; [exact F|]. cbn [map] in S2. rewrite last_cons_default in S2. exact S2.
Qed.

Lemma smooth_app (bound : Q) (first second : list Action) :
  first <> [] ->
  smooth bound first ->
  smooth_after bound (last_joints first) second ->
  smooth bound (first ++ second).
Proof.
  destruct first as [| a rest]; [congruence|]. intros _ F S2.
  cbn [app smooth] in *. apply smooth_after_app; [exact F|].
  unfold last_joints in S2. cbn [map] in S2. rewrite last_cons_default in S2. exact S2.
Qed.

(** A stub keeps a trajectory smooth across calls when each call starts
    from what the call before it ended on.  [carries self previous] says
    that the continuity state of [self] holds the joints [previous]. *)
Section Continuity.

Variable State : Type.
Variable ready : State -> Prop.
Variable carries : State -> list Q -> Prop.
Variable call : Observation -> M State ActionChunk.
Variable bound : Q.

Hypothesis call_continues : forall self obs w,
  ready self ->
  exists chunk self' w',
    call obs self w = (Ok chunk, self', w') /\
    ready self' /\
    actions chunk <> [] /\
    smooth bound (actions chunk) /\
    carries self' (last_joints (actions chunk)) /\
    (forall previous, carries self previous ->
       smooth_after bound previous (actions chunk)).

Lemma consecutive_continues (obss : list Observation) : forall self w,
  ready self ->
  exists chunks self' w',
    consecutive call obss self w = (Ok chunks, self', w') /\
    List.length chunks = List.length obss /\
    smooth bound (trajectory chunks) /\
    (forall previous, carries self previous ->
       smooth_after bound previous (trajectory chunks)).
Proof.
  induction obss as [| obs rest IH]; intros self w R.
  - exists [], self, w. cbn. repeat split; auto.
  - destruct (call_continues self obs w R)
      as (chunk & s1 & w1 & E & R1 & Ne & Sm & Ca & Fr).
    destruct (IH s1 w1 R1) as (chunks & s2 & w2 & E2 & Len & Sm2 & Fr2).
    exists (chunk :: chunks), s2, w2.
    cbn [consecutive bind Monad_M ret]. rewrite E, E2.
    split; [reflexivity|]. split; [cbn; rewrite Len; reflexivity|].
    unfold trajectory in *. cbn [map List.concat]. split.
    + apply smooth_app; auto.
    + intros previous Cp. apply smooth_after_app; [apply Fr; exact Cp|].
      specialize (Fr2 _ Ca). unfold last_joints in Fr2.
      destruct (actions chunk) as [| a l]; [congruence|].
      cbn [map] in *. rewrite last_cons_default in *. exact Fr2.
Qed.

End Continuity.

Lemma pi0_steps_final sin (counter : Z) (base dt : Q) (indices : list nat) :
  forall current acts final,
  Pi0Model.steps_loop sin counter base dt indices current = (acts, final) ->
  final = last (map joint_commands acts) current.
Proof.
  induction indices as [| i later IH]; intros current acts final E;
    cbn [Pi0Model.steps_loop] in E.
  - injection E as <- <-. reflexivity.
  - destruct (Pi0Model.steps_loop sin counter base dt later _) as [acts' final'] eqn:E'.
    injection E as <- <-. cbn [map joint_commands]. rewrite last_cons_default.
    exact (IH _ _ _ E').
Qed.

Section SmoothAcrossCalls.

Variable sin : Q -> Q.
Hypothesis sin_range : forall x, -1 <= sin x <= 1.

Lemma pi0_call_continues (self : Pi0Model.state) obs w :
  Pi0Model._loaded self = true ->
  exists chunk self' w',
    Pi0Model.predict sin obs self w = (Ok chunk, self', w') /\
    Pi0Model._loaded self' = true /\
    actions chunk <> [] /\
    smooth 0.2 (actions chunk) /\
    (Pi0Model._last_action self' = Some (last_joints (actions chunk)) /\
     Forall joint_ok (last_joints (actions chunk))) /\
    (forall previous,
       Pi0Model._last_action self = Some previous /\ Forall joint_ok previous ->
       smooth_after 0.2 previous (actions chunk)).
Proof.
  intros L. destruct (pi0_predict_loaded sin self obs w L)
    as (acts & current & conf & time & w' & E1 & E).
  rewrite E. do 3 eexists. split; [reflexivity|]. cbn [actions Pi0Model._loaded
    Pi0Model._last_action].
  destruct (pi0_steps_spec sin sin_range _ _ _ 0%nat _ _ _ eq_refl E1)
    as (Len & Ok' & Sm & _).
  assert (Ne : acts <> []) by (intros ->; discriminate Len).
  assert (F : current = last_joints acts).
  { rewrite (pi0_steps_final _ _ _ _ _ _ _ _ E1). unfold last_joints.
    destruct acts as [| a l]; [congruence|]. cbn [map]. rewrite !last_cons_default.
    reflexivity. }
  split; [reflexivity|]. split; [exact Ne|].
  split; [exact (pi0_steps_smooth sin sin_range _ _ _ 0%nat _ _ _ eq_refl E1)|].
  split.
  - split; [rewrite F; reflexivity|]. unfold last_joints.
    destruct acts as [| a l]; [congruence|]. cbn [map]. rewrite last_cons_default.
    assert (J : Forall (Forall joint_ok) (map joint_commands (a :: l))).
    { rewrite Forall_map. apply Forall_impl with (2 := Ok'). intros x [H _]. exact H. }
    rewrite Forall_forall in J. apply J. cbn [map]. apply last_in_cons.
  - intros previous [P Hp]. rewrite P in Sm. apply Sm. exact Hp.
Qed.

End SmoothAcrossCalls.

(** X2.  Successive [predict] calls on a loaded pi0 instance continue one
    trajectory: over the actions of all the chunks taken end to end, the
    first action of a chunk included, each joint command differs from the
    same joint of the action before it by less than 0.2. *)
Theorem pi0_trajectory_smooth_across_calls (sin : Q -> Q)
    (sin_range : forall x, -1 <= sin x <= 1)
    (self : Pi0Model.state) (obss : list Observation) (w : World) :
  Pi0Model._loaded self = true ->
  exists chunks self' w',
    consecutive (Pi0Model.predict sin) obss self w = (Ok chunks, self', w') /\
    List.length chunks = List.length obss /\
    smooth 0.2 (trajectory chunks).
Proof.
  intros L.
  destruct (consecutive_continues _ _ _ _ _ (pi0_call_continues sin sin_range) obss self w L)
    as (chunks & self' & w' & E & Len & Sm & _).
  exists chunks, self', w'. auto.
Qed.

Lemma pi0_trajectory_smooth_across_calls_witness :
  exists chunks self' w',
    consecutive (Pi0Model.predict sin_approx)
      [sample_observation; sample_observation; sample_observation]
      (fields_after (Pi0Model.load None "cpu" Pi0Model.init steady_world))
      steady_world = (Ok chunks, self', w') /\
    List.length chunks = 3%nat /\
    smooth 0.2 (trajectory chunks).
Proof.
  exact (pi0_trajectory_smooth_across_calls sin_approx sin_approx_range
           (fields_after (Pi0Model.load None "cpu" Pi0Model.init steady_world))
           [sample_observation; sample_observation; sample_observation]
           steady_world eq_refl).
Defined.

(** ** Step size of the target-tracking stub *)

Lemma toward_within (curr tgt step_size : Q) :
  0 <= step_size ->
  - step_size <= OpenVLAModel.toward curr tgt step_size - curr <= step_size.
Proof.
  intros Hs. unfold OpenVLAModel.toward, OpenVLAModel.Qgtb.
  destruct (tgt ?= curr) eqn:C;
    [apply Qeq_alt in C | apply Qlt_alt in C | apply Qgt_alt in C].
  1, 2: destruct (Q.max_spec tgt (curr - step_size)) as [[A B] | [A B]].
  5: destruct (Q.min_spec tgt (curr + step_size)) as [[A B] | [A B]].
  all: rewrite B; lra.
Qed.

Lemma clamp_near (c x e : Q) :
  -1 <= c <= 1 -> - e <= x - c <= e ->
  Qabs (Py.clamp (-1) 1 x - c) <= e.
Proof.
  intros Hc Hx. apply Qabs_Qle_condition.
  destruct (clamp_cases (-1) 1 x) as [[A B] | [[A B] | [A B]]];
    [lra | | |]; rewrite B; lra.
Qed.

Lemma openvla_joints_close (pairs : list (Q * Q)) : forall w jc w',
  OpenVLAModel.joints_loop pairs w = (jc, w') ->
  Forall2 (fun ct new => joint_ok (fst ct) -> Qabs (new - fst ct) <= 0.08) pairs jc.
Proof.
  induction pairs as [| [c t] rest IH]; intros w jc w' E;
    cbn [OpenVLAModel.joints_loop bind ret Monad_Rand] in E.
  - injection E as <- <-. constructor.
  - destruct (uniform (-0.02) 0.02 w) as [wobble w1] eqn:U1.
    destruct (uniform (-0.01) 0.01 w1) as [noise w2] eqn:U2.
    destruct (OpenVLAModel.joints_loop rest w2) as [rest' w3] eqn:R.
    injection E as <- <-.
    apply uniform_draw in U1; [| lra]. apply uniform_draw in U2; [| lra].
    constructor; [| exact (IH _ _ _ R)].
    cbn [fst]. intros Hc.
    pose proof (toward_within c t (0.05 + wobble) ltac:(lra)) as T.
    apply clamp_near; [exact Hc | lra].
Qed.

Lemma combine_firstn {A B : Type} (l : list A) : forall (t : list B),
  combine l t = combine (firstn (List.length t) l) t.
Proof.
  induction l as [| x l IH]; intros [| y t]; cbn; try reflexivity.
  rewrite <- IH. reflexivity.
Qed.

Lemma close_from_pairs (current : list Q) : forall (target jc : list Q),
  Forall2 (fun ct new => joint_ok (fst ct) -> Qabs (new - fst ct) <= 0.08)
    (combine current target) jc ->
  Forall joint_ok (firstn (List.length target) current) ->
  close_joints 0.1 (firstn (List.length target) current) jc.
Proof.
  induction current as [| c cs IH]; intros [| t ts] jc F R; cbn in *;
    inversion F; subst; try constructor.
  - inversion R; subst. apply Qle_lt_trans with (y := 0.08); [auto | lra].
  - inversion R; subst. apply IH; assumption.
Qed.

Lemma firstn_overwrite (target jc : list Q) : forall current,
  List.length jc = List.length (combine current target) ->
  firstn (List.length target) (OpenVLAModel.overwrite current jc) = jc.
Proof.
  unfold OpenVLAModel.overwrite. revert target.
  induction jc as [| x jc IH]; intros target current H.
  - cbn [List.length] in H. symmetry in H. apply length_zero_iff_nil in H.
    cbn. destruct current as [| c cs]; [destruct target; reflexivity|].
    destruct target as [| t ts]; [reflexivity | discriminate H].
  - destruct current as [| c cs]; [discriminate H|].
    destruct target as [| t ts]; [discriminate H|].
    cbn in H. injection H as H. cbn. f_equal. apply IH. exact H.
Qed.

(** Within a chunk and from its starting point, the commanded joints move
    by at most 0.08 a step; the loop ends on the joints of the last action. *)
Lemma openvla_steps_close (history : list (list Q)) (obs : Observation)
    (base dt : Q) (target : list Q) (indices : list nat) :
  forall current gripper w acts final final_gripper w',
  OpenVLAModel.steps_loop history obs base dt target indices current gripper w
    = (acts, final, final_gripper, w') ->
  (Forall joint_ok (firstn (List.length target) current) ->
   smooth_after 0.1 (firstn (List.length target) current) acts) /\
  smooth 0.1 acts /\
  Forall (fun a => Forall joint_ok (joint_commands a)) acts /\
  firstn (List.length target) final =
    last (map joint_commands acts) (firstn (List.length target) current).
Proof.
  induction indices as [| i later IH];
    intros current gripper w acts final final_gripper w' E;
    cbn [OpenVLAModel.steps_loop bind ret Monad_Rand] in E.
  - injection E as <- <- <- <-. cbn. repeat split; auto.
  - destruct (OpenVLAModel.joints_loop (combine current target) w) as [jc w1] eqn:J.
    destruct (uniform (-0.05) 0.05 w1) as [noise w2] eqn:U.
    destruct (OpenVLAModel.steps_loop history obs base dt target later _ _ w2)
      as [[[acts' final'] fg'] w3] eqn:E'.
    injection E as <- <- <- <-.
    destruct (IH _ _ _ _ _ _ _ E') as (After & Sm & Ok' & Fin).
    destruct (openvla_joints_spec _ _ _ _ J) as [T Jok].
    pose proof (openvla_joints_close _ _ _ _ J) as Cl.
    rewrite (firstn_overwrite target jc current (eq_sym (Forall2_length T))) in *.
    split; [| split; [| split]].
    + intros R. cbn [smooth_after joint_commands]. split; [| exact (After Jok)].
      apply close_from_pairs; assumption.
    + cbn [smooth joint_commands]. exact (After Jok).
    + constructor; [exact Jok | exact Ok'].
    + cbn [map joint_commands]. rewrite last_cons_default. exact Fin.
Qed.

Lemma generate_target_length (obs : Observation) (w : World) :
  List.length (fst (OpenVLAModel._generate_target obs w)) = 6%nat.
Proof.
  unfold OpenVLAModel._generate_target.
  destruct (OpenVLAModel.perturb _ w) as [target w'] eqn:P. cbn [fst].
  apply perturb_spec in P. apply Forall2_length in P. rewrite <- P.
  apply target_base_length.
Qed.

Lemma last_joints_in_range (acts : list Action) :
  Forall (fun a => Forall joint_ok (joint_commands a)) acts ->
  Forall joint_ok (last_joints acts).
Proof.
  intros H. unfold last_joints. destruct acts as [| a l]; [constructor|].
  rewrite <- Forall_map in H. rewrite Forall_forall in H. apply H.
  cbn [map]. rewrite last_cons_default. apply last_in_cons.
Qed.

Lemma openvla_call_continues (self : OpenVLAModel.state) obs w :
  OpenVLAModel._loaded self = true /\
  (6 <= start_length (OpenVLAModel._action_history self))%nat ->
  exists chunk self' w',
    OpenVLAModel.predict obs self w = (Ok chunk, self', w') /\
    (OpenVLAModel._loaded self' = true /\
     (6 <= start_length (OpenVLAModel._action_history self'))%nat) /\
    actions chunk <> [] /\
    smooth 0.1 (actions chunk) /\
    (OpenVLAModel._action_history self' <> [] /\
     firstn 6 (last (OpenVLAModel._action_history self') []) =
       last_joints (actions chunk) /\
     Forall joint_ok (last_joints (actions chunk))) /\
    (forall previous,
       OpenVLAModel._action_history self <> [] /\
       firstn 6 (last (OpenVLAModel._action_history self) []) = previous /\
       Forall joint_ok previous ->
       smooth_after 0.1 previous (actions chunk)).
Proof.
  intros [L S6]. destruct (openvla_predict_loaded self obs w L)
    as (w1 & target & w2 & acts & current & gripper & w3 & conf & time & w' & T & E1 & E).
  rewrite E. do 3 eexists. split; [reflexivity|].
  cbn [actions OpenVLAModel._loaded OpenVLAModel._action_history].
  pose proof (generate_target_length obs w1) as TL. rewrite T in TL. cbn [fst] in TL.
  destruct (openvla_steps_spec _ _ _ _ _ 0%nat _ _ _ _ _ _ _ eq_refl E1)
    as (Len & _ & _ & _ & _ & Fl & _).
  destruct (openvla_steps_close _ _ _ _ _ _ _ _ _ _ _ _ _ E1) as (After & Sm & Ok' & Fin).
  rewrite TL in *.
  destruct (push_history_spec (OpenVLAModel._action_history self) (current ++ [gripper]))
    as (La & Ne & _).
  assert (NeA : acts <> []) by (intros ->; discriminate Len).
  assert (SL : List.length current = start_length (OpenVLAModel._action_history self)).
  { rewrite Fl. unfold start_length, OpenVLAModel.last_entry.
    destruct (OpenVLAModel._action_history self); [apply initial_joints_length | reflexivity]. }
  assert (FJ : firstn 6 current = last_joints acts).
  { rewrite Fin. unfold last_joints. destruct acts as [| a l]; [congruence|].
    cbn [map]. rewrite !last_cons_default. reflexivity. }
  split; [| split; [exact NeA | split; [exact Sm | split]]].
  - split; [reflexivity|]. unfold start_length at 1.
    destruct (OpenVLAModel.push_history _ _) as [| e rest] eqn:P; [contradiction|].
    rewrite La, length_app. cbn [List.length]. lia.
  - split; [exact Ne|]. rewrite La. split; [| apply last_joints_in_range; exact Ok'].
    rewrite firstn_app. replace (6 - List.length current)%nat with 0%nat by lia.
    cbn [firstn]. rewrite app_nil_r. exact FJ.
  - intros previous (Nh & Fp & Rp). unfold OpenVLAModel.last_entry in After.
    destruct (OpenVLAModel._action_history self) as [| e rest]; [congruence|].
    rewrite Fp in After. apply After. exact Rp.
Qed.

(** X3.  On a loaded OpenVLA instance, whatever its history holds, the
    joint commands of a chunk are all in [-1, 1] and each differs from the
    same joint of the action before it by less than 0.1 (at most 0.08: a
    step of at most 0.07 and noise of at most 0.01). *)
Theorem openvla_chunk_steps_bounded
    (self : OpenVLAModel.state) (obs : Observation) (w : World) :
  OpenVLAModel._loaded self = true ->
  exists chunk self' w',
    OpenVLAModel.predict obs self w = (Ok chunk, self', w') /\
    Forall (fun a => Forall (fun x => -1 <= x <= 1) (joint_commands a)) (actions chunk) /\
    smooth 0.1 (actions chunk).
Proof.
  intros L. destruct (openvla_predict_loaded self obs w L)
    as (w1 & target & w2 & acts & current & gripper & w3 & conf & time & w' & T & E1 & E).
  rewrite E. do 3 eexists. split; [reflexivity|]. cbn [actions].
  destruct (openvla_steps_close _ _ _ _ _ _ _ _ _ _ _ _ _ E1) as (_ & Sm & Ok' & _).
  split; assumption.
Qed.

Lemma openvla_chunk_steps_bounded_witness :
  exists chunk self' w',
    OpenVLAModel.predict sample_observation
      (fields_after (OpenVLAModel.load None "cpu" OpenVLAModel.init steady_world))
      steady_world = (Ok chunk, self', w') /\
    Forall (fun a => Forall (fun x => -1 <= x <= 1) (joint_commands a)) (actions chunk) /\
    smooth 0.1 (actions chunk).
Proof.
  exact (openvla_chunk_steps_bounded
           (fields_after (OpenVLAModel.load None "cpu" OpenVLAModel.init steady_world))
           sample_observation steady_world eq_refl).
Defined.

(** X4.  Successive [predict] calls on a loaded OpenVLA instance whose
    starting point has at least six values (as it has after [load])
    continue one trajectory: indices 0 to 5 of the stored entry are the
    joints of the last action, so over the actions of all the chunks taken
    end to end each joint command differs from the same joint of the action
    before it by less than 0.1. *)
Theorem openvla_trajectory_smooth_across_calls
    (self : OpenVLAModel.state) (obss : list Observation) (w : World) :
  OpenVLAModel._loaded self = true ->
  (6 <= start_length (OpenVLAModel._action_history self))%nat ->
  exists chunks self' w',
    consecutive OpenVLAModel.predict obss self w = (Ok chunks, self', w') /\
    List.length chunks = List.length obss /\
    smooth 0.1 (trajectory chunks).
Proof.
  intros L S6.
  destruct (consecutive_continues _ _ _ _ _ openvla_call_continues obss self w (conj L S6))
    as (chunks & self' & w' & E & Len & Sm & _).
  exists chunks, self', w'. auto.
Qed.

Lemma openvla_trajectory_smooth_across_calls_witness :
  exists chunks self' w',
    consecutive OpenVLAModel.predict
      [sample_observation; sample_observation; sample_observation]
      (fields_after (OpenVLAModel.load None "cpu" OpenVLAModel.init steady_world))
      steady_world = (Ok chunks, self', w') /\
    List.length chunks = 3%nat /\
    smooth 0.1 (trajectory chunks).
Proof.
  apply (openvla_trajectory_smooth_across_calls
           (fields_after (OpenVLAModel.load None "cpu" OpenVLAModel.init steady_world))
           [sample_observation; sample_observation; sample_observation]
           steady_world eq_refl).
  cbn. lia.
Defined.

(** ** What the smooth stub reads of an observation *)

(** X5.  [predict] of the pi0 stub reads an observation only through its
    time stamp, its embodiment tag and, while no earlier output is stored,
    its first six joint positions: two observations that agree on these
    give the same result, the same fields and the same world, whatever
    their image, velocities, instruction, session and further joints. *)
Theorem pi0_predict_ignores_instruction (sin : Q -> Q)
    (self : Pi0Model.state) (w : World) (obs1 obs2 : Observation) :
  timestamp obs1 = timestamp obs2 ->
  embodiment_tag obs1 = embodiment_tag obs2 ->
  (Pi0Model._last_action self = None ->
   firstn 6 (joint_positions obs1) = firstn 6 (joint_positions obs2)) ->
  Pi0Model.predict sin obs1 self w = Pi0Model.predict sin obs2 self w.
Proof.
  intros Ht He Hj.
  unfold Pi0Model.predict, Pi0Model._generate_smooth_actions,
    Pi0Model._calculate_confidence, _check_loaded, lift.
  cbn [bind ret Monad_M get_self set_self raise].
  destruct (Pi0Model._loaded self); cbn [negb]; [| reflexivity].
  cbn [bind ret Monad_M get_self set_self raise perf_counter sleep Pi0Model._last_action].
  destruct (uniform _ _ w) as [latency w1].
  rewrite Ht, He.
  assert (S0 : match Pi0Model._last_action self with
               | Some last => last
               | None => initial_joints obs1
               end =
               match Pi0Model._last_action self with
               | Some last => last
               | None => initial_joints obs2
               end).
  { destruct (Pi0Model._last_action self); [reflexivity|].
    unfold initial_joints. rewrite (Hj eq_refl). reflexivity. }
  rewrite S0. reflexivity.
Qed.

Lemma pi0_predict_ignores_instruction_witness :
  let loaded := fields_after (Pi0Model.load None "cpu" Pi0Model.init steady_world) in
  let other :=
    {| camera_image := "";
       joint_positions := [0.1; 0.2; 0.3; 0.4; 0.5; 0.6; 0.9];
       joint_velocities := [1.0];
       language_instruction := "place the cup on the shelf";
       timestamp := 1234567890.0;
       embodiment_tag := "unitree_h1";
       session_id := None |} in
  Pi0Model.predict sin_approx sample_observation loaded steady_world =
  Pi0Model.predict sin_approx other loaded steady_world.
Proof.
  intros loaded other.
  apply (pi0_predict_ignores_instruction sin_approx loaded steady_world
           sample_observation other); reflexivity.
Defined.

(** ** Metadata and chunks *)

Lemma pi0_steps_length sin (counter : Z) (base dt : Q) (indices : list nat) :
  forall current acts final,
  Pi0Model.steps_loop sin counter base dt indices current = (acts, final) ->
  List.length acts = List.length indices.
Proof.
  induction indices as [| i later IH]; intros current acts final E;
    cbn [Pi0Model.steps_loop] in E.
  - injection E as <- <-. reflexivity.
  - destruct (Pi0Model.steps_loop sin counter base dt later _) as [acts' final'] eqn:E'.
    injection E as <- <-. cbn. rewrite (IH _ _ _ E'). reflexivity.
Qed.

(** X6.  Whatever the class and the fields of an instance, a chunk that
    [predict] returns has as many actions as the instance's [chunk_size],
    which is the chunk size of its [model_info], and carries the model
    version of its [model_info]; the call leaves the class of the instance
    and its metadata as they were. *)
Theorem chunk_matches_metadata (sin : Q -> Q) (b b' : Backend)
    (obs : Observation) (w w' : World) (chunk : ActionChunk) :
  predict (VLAModel := VLAModel_Backend sin) obs b w = (Ok chunk, b', w') ->
  Z.of_nat (List.length (actions chunk)) = chunk_size (VLAModel := VLAModel_Backend sin) b /\
  chunk_size (VLAModel := VLAModel_Backend sin) b =
    info_chunk_size (model_info (VLAModel := VLAModel_Backend sin) b) /\
  chunk_model_version chunk =
    model_version (model_info (VLAModel := VLAModel_Backend sin) b) /\
  model_info (VLAModel := VLAModel_Backend sin) b' =
    model_info (VLAModel := VLAModel_Backend sin) b /\
  is_loaded (VLAModel := VLAModel_Backend sin) b = true.
Proof.
  destruct b as [p | o | g]; cbn [predict VLAModel_Backend dispatch].
  - destruct (Pi0Model._loaded p) eqn:L.
    + destruct (pi0_predict_loaded sin p obs w L)
        as (acts & current & conf & time & w1 & E1 & E).
      rewrite E. intros H. injection H as <- <- <-. cbn.
      rewrite (pi0_steps_length _ _ _ _ _ _ _ _ E1). repeat split. exact L.
    + rewrite (proj1 (pi0_unloaded_calls sin p obs [] w L)). discriminate.
  - destruct (OpenVLAModel._loaded o) eqn:L.
    + destruct (openvla_predict_loaded o obs w L)
        as (w1 & target & w2 & acts & current & gripper & w3 & conf & time & w4 & _ & E1 & E).
      rewrite E. intros H. injection H as <- <- <-. cbn.
      rewrite (proj1 (openvla_steps_spec _ _ _ _ _ 0%nat _ _ _ _ _ _ _ eq_refl E1)).
      repeat split. exact L.
    + rewrite (proj1 (openvla_unloaded_calls o obs [] w L)). discriminate.
  - cbn. discriminate.
Qed.

Lemma chunk_matches_metadata_witness :
  exists chunk b' w',
    predict (VLAModel := VLAModel_Backend sin_approx) sample_observation
      (OpenVLA (fields_after (OpenVLAModel.load None "cpu" OpenVLAModel.init steady_world)))
      steady_world = (Ok chunk, b', w') /\
    Z.of_nat (List.length (actions chunk)) = 8%Z /\
    chunk_model_version chunk = "7b-stub".
Proof.
  destruct (predict (VLAModel := VLAModel_Backend sin_approx) sample_observation
              (OpenVLA (fields_after (OpenVLAModel.load None "cpu" OpenVLAModel.init
                                        steady_world)))
              steady_world) as [[[chunk | e] b'] w'] eqn:E.
  - exists chunk, b', w'. split; [reflexivity|].
    destruct (chunk_matches_metadata sin_approx _ _ _ _ _ _ E) as (A & _ & C & _).
    split; [exact A | exact C].
  - exfalso. vm_compute in E. discriminate E.
Defined.

(** ** Unloading and reloading *)

(** X7.  [unload] of the pi0 and OpenVLA stubs never raises and never
    touches the world; it clears [_loaded], the counter and the continuity
    state and keeps the device and the checkpoint path; a second [unload]
    changes nothing; and [unload] followed by [load] leaves exactly the
    fields that [load] with the same arguments leaves on a new instance. *)
Theorem unload_then_load_is_fresh
    (p : Pi0Model.state) (o : OpenVLAModel.state)
    (checkpoint_path : option string) (dev : string) (w : World) :
  let p' := {| Pi0Model._loaded := false;
               Pi0Model._device := Pi0Model._device p;
               Pi0Model._checkpoint_path := Pi0Model._checkpoint_path p;
               Pi0Model._sequence_counter := 0;
               Pi0Model._last_action := None |} in
  let o' := {| OpenVLAModel._loaded := false;
               OpenVLAModel._device := OpenVLAModel._device o;
               OpenVLAModel._checkpoint_path := OpenVLAModel._checkpoint_path o;
               OpenVLAModel._sequence_counter := 0;
               OpenVLAModel._action_history := [] |} in
  (Pi0Model._loaded p = true -> Pi0Model.unload p w = (Ok tt, p', w)) /\
  (Pi0Model._loaded p = false -> Pi0Model.unload p w = (Ok tt, p, w)) /\
  Pi0Model.unload (fields_after (Pi0Model.unload p w)) w =
    (Ok tt, fields_after (Pi0Model.unload p w), w) /\
  (Pi0Model.unload ;; Pi0Model.load checkpoint_path dev) p w =
    Pi0Model.load checkpoint_path dev Pi0Model.init w /\
  (OpenVLAModel._loaded o = true -> OpenVLAModel.unload o w = (Ok tt, o', w)) /\
  (OpenVLAModel._loaded o = false -> OpenVLAModel.unload o w = (Ok tt, o, w)) /\
  OpenVLAModel.unload (fields_after (OpenVLAModel.unload o w)) w =
    (Ok tt, fields_after (OpenVLAModel.unload o w), w) /\
  (OpenVLAModel.unload ;; OpenVLAModel.load checkpoint_path dev) o w =
    OpenVLAModel.load checkpoint_path dev OpenVLAModel.init w.
Proof.
  intros p' o'.
  unfold Pi0Model.unload, Pi0Model.load, OpenVLAModel.unload, OpenVLAModel.load.
  cbn [bind Monad_M get_self ret].
  destruct (Pi0Model._loaded p) eqn:Lp; destruct (OpenVLAModel._loaded o) eqn:Lo;
    cbn; rewrite ?Lp, ?Lo; repeat split; intros; try discriminate; reflexivity.
Qed.

Lemma unload_then_load_is_fresh_witness :
  let p := fields_after (Pi0Model.load (Some "ckpt") "cuda" Pi0Model.init steady_world) in
  Pi0Model.unload p steady_world =
    (Ok tt,
     {| Pi0Model._loaded := false;
        Pi0Model._device := "cuda";
        Pi0Model._checkpoint_path := Some "ckpt";
        Pi0Model._sequence_counter := 0;
        Pi0Model._last_action := None |}, steady_world) /\
  OpenVLAModel.unload OpenVLAModel.init steady_world =
    (Ok tt, OpenVLAModel.init, steady_world).
Proof.
  intros p. split.
  - exact (proj1 (unload_then_load_is_fresh p OpenVLAModel.init None "cpu" steady_world)
             eq_refl).
  - exact (proj1 (proj2 (proj2 (proj2 (proj2 (proj2
             (unload_then_load_is_fresh p OpenVLAModel.init None "cpu" steady_world))))))
             eq_refl).
Defined.

(** ** The empty batch *)

(** X8.  [predict_batch] of an empty list returns the empty list on a
    loaded pi0 or OpenVLA instance and leaves the fields (so the sequence
    counter) and the world (so the random source) untouched; on an unloaded
    instance it raises the [RuntimeError] of [_check_loaded] all the same;
    on the GR00T stub it raises [GR00TNotAvailableError]. *)
Theorem predict_batch_of_nothing (sin : Q -> Q)
    (p : Pi0Model.state) (o : OpenVLAModel.state) (g : GR00TModel.state) (w : World) :
  (Pi0Model._loaded p = true -> Pi0Model.predict_batch sin [] p w = (Ok [], p, w)) /\
  (Pi0Model._loaded p = false ->
     exists e, Pi0Model.predict_batch sin [] p w = (Raise e, p, w) /\
               Py.exc_class e = Py.RuntimeError) /\
  (OpenVLAModel._loaded o = true -> OpenVLAModel.predict_batch [] o w = (Ok [], o, w)) /\
  (OpenVLAModel._loaded o = false ->
     exists e, OpenVLAModel.predict_batch [] o w = (Raise e, o, w) /\
               Py.exc_class e = Py.RuntimeError) /\
  (exists e, GR00TModel.predict_batch [] g w = (Raise e, g, w) /\
             Py.exc_class e = Py.GR00TNotAvailableError).
Proof.
  unfold Pi0Model.predict_batch, OpenVLAModel.predict_batch, _check_loaded.
  cbn [bind Monad_M get_self ret].
  repeat split; try intros H; try rewrite H; cbn; try reflexivity;
    eexists; split; reflexivity.
Qed.

Lemma predict_batch_of_nothing_witness :
  let p := fields_after (Pi0Model.load None "cpu" Pi0Model.init steady_world) in
  Pi0Model.predict_batch sin_approx [] p steady_world = (Ok [], p, steady_world) /\
  exists e, OpenVLAModel.predict_batch [] OpenVLAModel.init steady_world
              = (Raise e, OpenVLAModel.init, steady_world) /\
            Py.exc_class e = Py.RuntimeError.
Proof.
  intros p. split.
  - exact (proj1 (predict_batch_of_nothing sin_approx p OpenVLAModel.init
                    GR00TModel.init steady_world) eq_refl).
  - exact (proj1 (proj2 (proj2 (proj2
             (predict_batch_of_nothing sin_approx p OpenVLAModel.init
                GR00TModel.init steady_world)))) eq_refl).
Defined.

(** ** Size of the history *)

Lemma push_history_length (history : list (list Q)) (entry : list Q) :
  (List.length history <= 10)%nat ->
  List.length (OpenVLAModel.push_history history entry) =
    Nat.min (S (List.length history)) 10.
Proof.
  intros B. unfold OpenVLAModel.push_history.
  destruct (Nat.ltb_spec 10 (List.length (history ++ [entry]))) as [H | H];
    rewrite length_app in H; cbn [List.length] in H.
  - destruct history as [| e0 rest]; [cbn in H; lia|].
    cbn [app tl]. rewrite length_app. cbn [List.length] in *. lia.
  - rewrite length_app. cbn [List.length]. lia.
Qed.

Lemma openvla_predict_history_length (self : OpenVLAModel.state) obs w :
  OpenVLAModel._loaded self = true /\
  (List.length (OpenVLAModel._action_history self) <= 10)%nat ->
  exists chunk self' w',
    OpenVLAModel.predict obs self w = (Ok chunk, self', w') /\
    OpenVLAModel._loaded self' = true /\
    List.length (OpenVLAModel._action_history self') =
      Nat.min (S (List.length (OpenVLAModel._action_history self))) 10.
Proof.
  intros [L B]. destruct (openvla_predict_loaded self obs w L)
    as (w1 & target & w2 & acts & current & gripper & w3 & conf & time & w' & _ & _ & E).
  rewrite E. do 3 eexists. split; [reflexivity|]. split; [reflexivity|].
  cbn [OpenVLAModel._action_history]. apply push_history_length. exact B.
Qed.

(** X9.  The history of the OpenVLA stub never holds more than ten
    entries: from a loaded instance that holds at most ten, N further
    [predict] calls all return and leave min (entries + N, 10) entries;
    after [load] that is min (N, 10). *)
Theorem openvla_history_window
    (self : OpenVLAModel.state) (obss : list Observation) (w : World) :
  OpenVLAModel._loaded self = true ->
  (List.length (OpenVLAModel._action_history self) <= 10)%nat ->
  exists chunks self' w',
    consecutive OpenVLAModel.predict obss self w = (Ok chunks, self', w') /\
    List.length (OpenVLAModel._action_history self') =
      Nat.min (List.length (OpenVLAModel._action_history self) + List.length obss) 10.
Proof.
  revert self w. induction obss as [| obs rest IH]; intros self w L B.
  - exists [], self, w. cbn. split; [reflexivity | lia].
  - destruct (openvla_predict_history_length self obs w (conj L B))
      as (chunk & s1 & w1 & E & L1 & Len).
    destruct (IH s1 w1 L1 ltac:(lia)) as (chunks & s2 & w2 & E2 & Len2).
    exists (chunk :: chunks), s2, w2.
    cbn [consecutive bind Monad_M ret]. rewrite E, E2. split; [reflexivity|].
    rewrite Len2, Len. cbn [List.length]. lia.
Qed.

Lemma openvla_history_window_witness :
  exists chunks self' w',
    consecutive OpenVLAModel.predict (repeat sample_observation 12)
      (fields_after (OpenVLAModel.load None "cpu" OpenVLAModel.init steady_world))
      steady_world = (Ok chunks, self', w') /\
    List.length (OpenVLAModel._action_history self') = 10%nat.
Proof.
  apply (openvla_history_window
           (fields_after (OpenVLAModel.load None "cpu" OpenVLAModel.init steady_world))
           (repeat sample_observation 12) steady_world eq_refl).
  cbn. lia.
Defined.

(** * Properties of the configuration *)

(** ** Validation *)

Lemma append_if_nil (failed : bool) (message : string) (errors : list string) :
  Config.append_if failed message errors = [] <-> failed = false /\ errors = [].
Proof.
  unfold Config.append_if. destruct failed; split.
  - intros H. apply app_eq_nil in H. destruct H as [_ H]. discriminate.
  - intros [H _]. discriminate.
  - auto.
  - intros [_ H]. exact H.
Qed.

(** X10.  [validate] returns no message exactly when the lower-cased model
    type is one of pi0, pi0_6, openvla, groot, the device is, letter for
    letter, one of cpu, cuda, cuda:0 ... cuda:7, the batch size and the
    worker count are at least 1 and the gRPC port lies in 1..65535.  No
    other field is examined. *)
Theorem validate_accepts_iff (config : Config.VLAConfig) :
  Config.validate config = [] <->
  In (Py.lower (Config.model_type config)) ["pi0"; "pi0_6"; "openvla"; "groot"] /\
  In (Config.device config)
     ["cpu"; "cuda"; "cuda:0"; "cuda:1"; "cuda:2"; "cuda:3";
      "cuda:4"; "cuda:5"; "cuda:6"; "cuda:7"] /\
  (1 <= Config.batch_size config)%Z /\
  (1 <= Config.grpc_port config <= 65535)%Z /\
  (1 <= Config.max_workers config)%Z.
Proof.
  unfold Config.validate. rewrite !append_if_nil.
  rewrite !negb_false_iff, orb_false_iff, !Z.ltb_ge, !list_in_In.
  change Config.valid_devices with
    ["cpu"; "cuda"; "cuda:0"; "cuda:1"; "cuda:2"; "cuda:3";
     "cuda:4"; "cuda:5"; "cuda:6"; "cuda:7"].
  unfold Config.valid_models. intuition lia.
Qed.

Lemma create_model_accepts (model_type : string) :
  (exists b, create_model model_type = Ok b) <->
  In (Py.lower model_type) Config.valid_models.
Proof.
  unfold create_model, Config.valid_models, model_map. cbn [dict_get]. split.
  - intros [b H].
    destruct (String.eqb_spec (Py.lower model_type) "pi0"); [cbn; auto|].
    destruct (String.eqb_spec (Py.lower model_type) "pi0_6"); [cbn; auto|].
    destruct (String.eqb_spec (Py.lower model_type) "openvla"); [cbn; auto|].
    destruct (String.eqb_spec (Py.lower model_type) "groot"); [cbn; auto|].
    discriminate H.
  - intros [H | [H | [H | [H | []]]]]; rewrite <- H; eexists; reflexivity.
Qed.

(** X11.  The validator and the factory agree on model types: [create_model]
    returns an instance for exactly the identifiers [validate] does not
    report, so a configuration that validates names a model the factory
    can build (not yet loaded). *)
Theorem validated_model_type_builds (sin : Q -> Q) (config : Config.VLAConfig) :
  ((exists b, create_model (Config.model_type config) = Ok b) <->
   Py.list_in (Py.lower (Config.model_type config)) Config.valid_models = true) /\
  (Config.validate config = [] ->
   exists b, create_model (Config.model_type config) = Ok b /\
             is_loaded (VLAModel := VLAModel_Backend sin) b = false).
Proof.
  split.
  - rewrite list_in_In. apply create_model_accepts.
  - intros V. apply validate_accepts_iff in V. destruct V as [V _].
    apply (proj2 (create_model_accepts _)) in V. destruct V as [b E].
    exists b. split; [exact E|].
    destruct (create_model_fresh _ _ E) as [-> | [-> | ->]]; reflexivity.
Qed.

Lemma validated_model_type_builds_witness :
  exists b, create_model "OpenVLA" = Ok b /\
            is_loaded (VLAModel := VLAModel_Backend sin_approx) b = false.
Proof.
  apply (proj2 (validated_model_type_builds sin_approx
                  {| Config.model_type := "OpenVLA";
                     Config.model_path := None;
                     Config.device := "cuda:3";
                     Config.batch_size := 4;
                     Config.max_batch_wait_ms := 0;
                     Config.timeout_ms := 0;
                     Config.image_width := 0;
                     Config.image_height := 0;
                     Config.action_dim := 0;
                     Config.chunk_size := -1;
                     Config.grpc_port := 65535;
                     Config.max_workers := 1;
                     Config.max_message_size_mb := 0;
                     Config.health_check_interval_s := 0;
                     Config.metrics_enabled := false;
                     Config.metrics_port := 0 |})).
  reflexivity.
Defined.

Lemma validate_accepts_iff_witness :
  Config.validate
    {| Config.model_type := "GROOT";
       Config.model_path := None;
       Config.device := "cuda:7";
       Config.batch_size := 1;
       Config.max_batch_wait_ms := -3;
       Config.timeout_ms := 0;
       Config.image_width := 0;
       Config.image_height := 0;
       Config.action_dim := 0;
       Config.chunk_size := 0;
       Config.grpc_port := 1;
       Config.max_workers := 1;
       Config.max_message_size_mb := 0;
       Config.health_check_interval_s := 0;
       Config.metrics_enabled := true;
       Config.metrics_port := 70000 |} = [].
Proof.
  apply (proj2 (validate_accepts_iff _)). cbn.
  repeat split; try lia; auto 20.
Defined.

(** ** Reading the environment *)

Lemma int_plain_reads (n : Z) : Config.int_plain (Config.str_int n) = inr n.
Proof.
  unfold Config.int_plain, Config.str_int.
  rewrite DecimalString.NilZero.isi.
  - rewrite DecimalZ.of_to. reflexivity.
  - destruct n; cbn; try discriminate.
    intros H. injection H as H. exact (DecimalPos.Unsigned.to_uint_nonnil _ H).
  - destruct n; cbn; try discriminate.
    intros H. injection H as H. exact (DecimalPos.Unsigned.to_uint_nonnil _ H).
Qed.

Section FromEnv.

Variable int : string -> Config.Exc Z.

(** X12.  [from_env] fails exactly when [int] rejects the text of one of
    the twelve numeric settings (the variable's value, or the default text
    when it is unset), and then with the exception of the first such
    setting in the order the arguments are written.  Otherwise it returns a
    configuration that takes the model type, the model path and the device
    from the environment as they are, unchecked, and has metrics enabled
    exactly when VLA_METRICS_ENABLED is unset or reads "true" in any
    letter case. *)
Theorem from_env_outcome (env : Config.Env) :
  match Config.first_failure int env Config.numeric_settings with
  | Some e => Config.from_env int env = inl e
  | None =>
      exists config,
        Config.from_env int env = inr config /\
        Config.model_type config =
          match env "VLA_MODEL_TYPE" with Some v => v | None => "pi0" end /\
        Config.model_path config = env "VLA_MODEL_PATH" /\
        Config.device config =
          match env "VLA_DEVICE" with Some v => v | None => "cpu" end /\
        (Config.metrics_enabled config = true <->
           match env "VLA_METRICS_ENABLED" with
           | Some v => Py.lower v = "true"
           | None => True
           end) /\
        int (Config.getenv_or env "VLA_GRPC_PORT" "50051") =
          inr (Config.grpc_port config)
  end.
Proof.
  unfold Config.from_env, Config.numeric_settings.
  cbn [Config.first_failure bind ret Config.Monad_Exc].
  repeat match goal with
         | |- context [int ?text] =>
             let E := fresh "E" in
             destruct (int text) as [? | ?] eqn:E; [reflexivity|]
         end.
  eexists. split; [reflexivity|]. cbn.
  unfold Config.getenv_or, Config.getenv.
  repeat split; try reflexivity.
  - intros H. apply String.eqb_eq in H.
    destruct (env "VLA_METRICS_ENABLED"); [exact H | exact I].
  - intros H. apply String.eqb_eq.
    destruct (env "VLA_METRICS_ENABLED"); [exact H | reflexivity].
Qed.

(** X13.  Where [int] reads back the decimal text of the numbers from 0 to
    99999 and none of the sixteen VLA_ variables is set, [from_env] returns
    the defaults of the dataclass; they pass [validate], select the pi0
    stub, and repeat its metadata (action dimension, chunk size, image
    size). *)
Theorem from_env_defaults (env : Config.Env) :
  (forall n, (0 <= n < 100000)%Z -> int (Config.str_int n) = inr n) ->
  (forall key,
     In key (["VLA_MODEL_TYPE"; "VLA_MODEL_PATH"; "VLA_DEVICE"; "VLA_METRICS_ENABLED"]
             ++ map fst Config.numeric_settings)%list ->
     env key = None) ->
  Config.from_env int env = inr Config.defaults /\
  Config.validate Config.defaults = [] /\
  create_model (Config.model_type Config.defaults) = Ok (Pi0 Pi0Model.init) /\
  Config.action_dim Config.defaults = action_dim Pi0Model.model_info /\
  Config.chunk_size Config.defaults = Pi0Model.chunk_size /\
  Config.image_width Config.defaults = image_width Pi0Model.model_info /\
  Config.image_height Config.defaults = image_height Pi0Model.model_info.
Proof.
  intros Hint Henv. split; [| repeat split].
  unfold Config.from_env, Config.getenv_or, Config.getenv.
  rewrite !Henv by (cbn; auto 30).
  cbn [bind ret Config.Monad_Exc].
  assert (R : forall n text, (0 <= n < 100000)%Z -> Config.str_int n = text ->
                             int text = inr n)
    by (intros n text B <-; apply Hint; exact B).
  rewrite (R 1%Z "1"), (R 10%Z "10"), (R 5000%Z "5000"), (R 224%Z "224"),
    (R 7%Z "7"), (R 16%Z "16"), (R 50051%Z "50051"), (R 4%Z "4"), (R 30%Z "30"),
    (R 9090%Z "9090") by (lia || reflexivity).
  reflexivity.
Qed.

(** X14.  [get_config] reads the environment once: after a call that
    returned, later calls return the same configuration whatever the
    environment has become, until [reset_config]; after [reset_config] the
    next call reads the environment again.  A call in which [from_env]
    raises stores nothing, so the next call reads again. *)
Theorem get_config_caches (env env' : Config.Env) (config : Config.VLAConfig)
    (stored : option Config.VLAConfig) :
  Config.get_config int env None = (inr config, stored) ->
  stored = Some config /\
  Config.get_config int env' stored = (inr config, stored) /\
  Config.get_config int env' (Config.reset_config stored) =
    Config.get_config int env' None /\
  (forall e, Config.from_env int env' = inl e ->
             Config.get_config int env' None = (inl e, None)).
Proof.
  unfold Config.get_config, Config.reset_config.
  destruct (Config.from_env int env) as [e | c]; intros H; [discriminate|].
  injection H as -> <-. repeat split. intros e ->. reflexivity.
Qed.

End FromEnv.

Lemma from_env_defaults_witness :
  Config.from_env Config.int_plain (fun _ => None) = inr Config.defaults.
Proof.
  apply (from_env_defaults Config.int_plain (fun _ => None)).
  - intros n _. apply int_plain_reads.
  - reflexivity.
Defined.

Lemma get_config_caches_witness :
  Config.get_config Config.int_plain
    (fun key => if String.eqb key "VLA_GRPC_PORT" then Some "not a number" else None)
    (Some Config.defaults) = (inr Config.defaults, Some Config.defaults).
Proof.
  exact (proj1 (proj2 (get_config_caches Config.int_plain (fun _ => None)
                         (fun key => if String.eqb key "VLA_GRPC_PORT"
                                     then Some "not a number" else None)
                         Config.defaults (Some Config.defaults) eq_refl))).
Defined.

(** * Properties of the metrics collector *)

Lemma requests_total_tell (model_type status : string) (self : Metrics.VLAMetrics)
    (sample : Metrics.Sample) :
  Metrics.requests_total model_type status (Metrics.tell self sample) =
    (Metrics.requests_total model_type status self +
     if Metrics.is_request model_type status sample then 1 else 0)%nat.
Proof.
  unfold Metrics.requests_total, Metrics.tell. cbn [Metrics.told].
  rewrite filter_app, length_app. cbn [filter].
  destruct (Metrics.is_request model_type status sample); reflexivity.
Qed.

Lemma latencies_tell (model_type embodiment : string) (self : Metrics.VLAMetrics)
    (sample : Metrics.Sample) :
  Metrics.latencies model_type embodiment (Metrics.tell self sample) =
    (Metrics.latencies model_type embodiment self ++
     Metrics.latency_of model_type embodiment sample)%list.
Proof.
  unfold Metrics.latencies, Metrics.tell. cbn [Metrics.told].
  rewrite flat_map_app. cbn [flat_map]. rewrite app_nil_r. reflexivity.
Qed.

Lemma measure_latency_spec {S A : Type} (model_type embodiment : string)
    (body : M S A) (self : Metrics.VLAMetrics) (fields : S) (w : World) :
  let alone := body fields w in
  let measured := Metrics.measure_latency model_type embodiment body (self, fields) w in
  let self' := fst (fields_after measured) in
  fst (fst measured) = fst (fst alone) /\
  snd (fields_after measured) = fields_after alone /\
  world_after measured = world_after alone /\
  Metrics._enabled self' = Metrics._enabled self /\
  (Metrics._enabled self = false -> self' = self) /\
  (Metrics._enabled self = true ->
     Metrics.requests_total model_type "success" self' =
       (Metrics.requests_total model_type "success" self +
        match returned alone with Some _ => 1 | None => 0 end)%nat /\
     Metrics.requests_total model_type "error" self' =
       (Metrics.requests_total model_type "error" self +
        match raised alone with
        | Some e => if Py.isinstance e Py.Exception then 1 else 0
        | None => 0
        end)%nat /\
     Metrics.latencies model_type embodiment self' =
       (Metrics.latencies model_type embodiment self ++
        [clock (world_after alone) - clock w])%list).
Proof.
  cbv zeta. unfold Metrics.measure_latency, fields_after, world_after.
  destruct (Metrics._enabled self) eqn:En; cbn [negb perf_counter].
  - destruct (body fields w) as [[[a | e] fields'] w'] eqn:B;
      cbn [fst snd returned raised];
      [| destruct (Py.isinstance e Py.Exception)];
      (split; [reflexivity|]); (split; [reflexivity|]); (split; [reflexivity|]);
      (split; [exact En|]); (split; [discriminate|]); intros _;
      rewrite ?requests_total_tell, ?latencies_tell;
      cbn [Metrics.is_request Metrics.latency_of Metrics.labels_eqb];
      rewrite ?String.eqb_refl; cbn [String.eqb Ascii.eqb Bool.eqb andb];
      rewrite ?andb_false_r; cbn [andb];
      rewrite ?app_nil_r;
      (split; [lia | split; [lia | reflexivity]]).
  - destruct (body fields w) as [[r fields'] w'] eqn:B; cbn [fst snd].
    (split; [reflexivity|]); (split; [reflexivity|]); (split; [reflexivity|]).
    split; [exact En|]. split; [reflexivity | discriminate].
Qed.

(** X15.  [measure_latency] is transparent to the statement it wraps: the
    value or exception, the body's fields and the world come out as the
    body alone leaves them.  When metrics are enabled it counts the call
    under status "success" if the body returned and under "error" if it
    raised an instance of [Exception]; an exception outside [Exception]
    ([KeyboardInterrupt], [SystemExit]) is counted under neither.  In all
    three cases the exception, if any, still propagates and one latency is
    observed, the difference of the clock readings after and before the
    body.  When metrics are disabled nothing is recorded. *)
Theorem measure_latency_accounts {S A : Type} (model_type embodiment : string)
    (body : M S A) (self : Metrics.VLAMetrics) (fields : S) (w : World) :
  let alone := body fields w in
  let measured := Metrics.measure_latency model_type embodiment body (self, fields) w in
  let self' := fst (fields_after measured) in
  fst (fst measured) = fst (fst alone) /\
  snd (fields_after measured) = fields_after alone /\
  world_after measured = world_after alone /\
  Metrics._enabled self' = Metrics._enabled self /\
  (Metrics._enabled self = false -> self' = self) /\
  (Metrics._enabled self = true ->
     Metrics.requests_total model_type "success" self' =
       (Metrics.requests_total model_type "success" self +
        match returned alone with Some _ => 1 | None => 0 end)%nat /\
     Metrics.requests_total model_type "error" self' =
       (Metrics.requests_total model_type "error" self +
        match raised alone with
        | Some e => if Py.isinstance e Py.Exception then 1 else 0
        | None => 0
        end)%nat /\
     Metrics.latencies model_type embodiment self' =
       (Metrics.latencies model_type embodiment self ++
        [clock (world_after alone) - clock w])%list).
Proof. exact (measure_latency_spec model_type embodiment body self fields w). Qed.

Lemma measure_latency_accounts_witness :
  let self := Metrics.init true in
  let measured :=
    Metrics.measure_latency "openvla" "ur5" (OpenVLAModel.predict sample_observation)
      (self, OpenVLAModel.init) steady_world in
  let interrupted :=
    Metrics.measure_latency (A := ActionChunk) "openvla" "ur5"
      (raise (Py.mk_exn Py.KeyboardInterrupt ""))
      (self, OpenVLAModel.init) steady_world in
  (Metrics.requests_total "openvla" "error" (fst (fields_after measured)) = 1%nat /\
   Metrics.requests_total "openvla" "success" (fst (fields_after measured)) = 0%nat /\
   Metrics.latencies "openvla" "ur5" (fst (fields_after measured)) = [0 - 0]) /\
  (Metrics.requests_total "openvla" "error" (fst (fields_after interrupted)) = 0%nat /\
   Metrics.requests_total "openvla" "success" (fst (fields_after interrupted)) = 0%nat /\
   Metrics.latencies "openvla" "ur5" (fst (fields_after interrupted)) = [0 - 0]).
Proof.
  intros self measured interrupted. split.
  - destruct (measure_latency_accounts "openvla" "ur5"
                (OpenVLAModel.predict sample_observation) self OpenVLAModel.init
                steady_world) as (_ & _ & _ & _ & _ & H).
    destruct (H eq_refl) as (A & B & C). repeat split; assumption.
  - destruct (measure_latency_accounts (A := ActionChunk) "openvla" "ur5"
                (raise (Py.mk_exn Py.KeyboardInterrupt "")) self OpenVLAModel.init
                steady_world) as (_ & _ & _ & _ & _ & H).
    destruct (H eq_refl) as (A & B & C). repeat split; assumption.
Defined.

(** ** Measured calls in a row *)

Section Measured.

Variable State : Type.
Variable loaded : State -> bool.
Variable call : Observation -> M State ActionChunk.
Variable model_type : string.

Hypothesis call_returns : forall self obs w,
  loaded self = true ->
  exists chunk self' w',
    call obs self w = (Ok chunk, self', w') /\ loaded self' = true.

Lemma measured_calls_counted (obss : list Observation) : forall metrics self w,
  loaded self = true ->
  Metrics._enabled metrics = true ->
  exists chunks metrics' self' w',
    consecutive (measured model_type call) obss (metrics, self) w =
      (Ok chunks, (metrics', self'), w') /\
    consecutive call obss self w = (Ok chunks, self', w') /\
    Metrics.requests_total model_type "success" metrics' =
      (Metrics.requests_total model_type "success" metrics + List.length obss)%nat /\
    Metrics.requests_total model_type "error" metrics' =
      Metrics.requests_total model_type "error" metrics.
Proof.
  induction obss as [| obs rest IH]; intros metrics self w L En.
  - exists [], metrics, self, w. cbn. repeat split; lia.
  - destruct (call_returns self obs w L) as (chunk & s1 & w1 & E & L1).
    pose proof (measure_latency_spec model_type (embodiment_tag obs) (call obs)
                  metrics self w) as Sp.
    cbv zeta in Sp. fold (measured model_type call obs) in Sp.
    rewrite E in Sp. unfold fields_after, world_after in Sp.
    destruct (measured model_type call obs (metrics, self) w)
      as [[r [m1 s1']] w1'] eqn:Em.
    cbn [fst snd returned raised] in Sp.
    destruct Sp as (-> & -> & -> & En1 & _ & Cn).
    destruct (Cn En) as (Su & Er & _).
    destruct (IH m1 s1 w1 L1 ltac:(congruence)) as (chunks & m2 & s2 & w2 & E2 & E3 & Su2 & Er2).
    exists (chunk :: chunks), m2, s2, w2.
    cbn [consecutive bind Monad_M ret]. rewrite Em, E, E2, E3.
    repeat split; cbn [List.length]; lia.
Qed.

End Measured.

(** X16.  Calls measured one after the other on a loaded pi0 or OpenVLA
    instance, with metrics enabled, return the chunks the same calls return
    unmeasured and leave the model as they do; the request counter of the
    model type goes up by the number of calls under "success" and stays
    where it was under "error". *)
Theorem measured_predicts_counted (sin : Q -> Q)
    (metrics : Metrics.VLAMetrics) (p : Pi0Model.state) (o : OpenVLAModel.state)
    (obss : list Observation) (w : World) :
  Metrics._enabled metrics = true ->
  Pi0Model._loaded p = true ->
  OpenVLAModel._loaded o = true ->
  (exists chunks metrics' p' w',
     consecutive (measured "pi0" (Pi0Model.predict sin)) obss (metrics, p) w =
       (Ok chunks, (metrics', p'), w') /\
     consecutive (Pi0Model.predict sin) obss p w = (Ok chunks, p', w') /\
     Metrics.requests_total "pi0" "success" metrics' =
       (Metrics.requests_total "pi0" "success" metrics + List.length obss)%nat /\
     Metrics.requests_total "pi0" "error" metrics' =
       Metrics.requests_total "pi0" "error" metrics) /\
  (exists chunks metrics' o' w',
     consecutive (measured "openvla" OpenVLAModel.predict) obss (metrics, o) w =
       (Ok chunks, (metrics', o'), w') /\
     consecutive OpenVLAModel.predict obss o w = (Ok chunks, o', w') /\
     Metrics.requests_total "openvla" "success" metrics' =
       (Metrics.requests_total "openvla" "success" metrics + List.length obss)%nat /\
     Metrics.requests_total "openvla" "error" metrics' =
       Metrics.requests_total "openvla" "error" metrics).
Proof.
  intros En Lp Lo. split.
  - apply (measured_calls_counted _ Pi0Model._loaded (Pi0Model.predict sin) "pi0");
      auto.
    intros self obs w0 L.
    destruct (pi0_call_counts sin self obs w0 L) as (c & s' & w' & E & _ & L' & _).
    exists c, s', w'. auto.
  - apply (measured_calls_counted _ OpenVLAModel._loaded OpenVLAModel.predict "openvla");
      auto.
    intros self obs w0 L.
    destruct (openvla_call_counts self obs w0 L) as (c & s' & w' & E & _ & L' & _).
    exists c, s', w'. auto.
Qed.

Lemma measured_predicts_counted_witness :
  exists chunks metrics' p' w',
    consecutive (measured "pi0" (Pi0Model.predict sin_approx))
      [sample_observation; sample_observation]
      (Metrics.init true,
       fields_after (Pi0Model.load None "cpu" Pi0Model.init steady_world))
      steady_world = (Ok chunks, (metrics', p'), w') /\
    consecutive (Pi0Model.predict sin_approx)
      [sample_observation; sample_observation]
      (fields_after (Pi0Model.load None "cpu" Pi0Model.init steady_world))
      steady_world = (Ok chunks, p', w') /\
    Metrics.requests_total "pi0" "success" metrics' = 2%nat /\
    Metrics.requests_total "pi0" "error" metrics' = 0%nat.
Proof.
  exact (proj1 (measured_predicts_counted sin_approx (Metrics.init true)
                  (fields_after (Pi0Model.load None "cpu" Pi0Model.init steady_world))
                  (fields_after (OpenVLAModel.load None "cpu" OpenVLAModel.init
                                   steady_world))
                  [sample_observation; sample_observation] steady_world
                  eq_refl eq_refl eq_refl)).
Defined.

(** * Further properties of the generators *)

(** X17.  The trajectory of the pi0 stub does not depend on the random
    source or the clock: on a loaded instance two calls for the same
    observation in different worlds return the same actions and the same
    sequence number and leave the same fields.  (The confidence and the
    reported time are what the world decides.) *)
Theorem pi0_actions_ignore_world (sin : Q -> Q)
    (self : Pi0Model.state) (obs : Observation) (w1 w2 : World) :
  Pi0Model._loaded self = true ->
  exists chunk1 chunk2 self' w1' w2',
    Pi0Model.predict sin obs self w1 = (Ok chunk1, self', w1') /\
    Pi0Model.predict sin obs self w2 = (Ok chunk2, self', w2') /\
    actions chunk1 = actions chunk2 /\
    sequence_number chunk1 = sequence_number chunk2.
Proof.
  intros L.
  destruct (pi0_predict_loaded sin self obs w1 L)
    as (acts1 & cur1 & conf1 & time1 & w1' & S1 & E1).
  destruct (pi0_predict_loaded sin self obs w2 L)
    as (acts2 & cur2 & conf2 & time2 & w2' & S2 & E2).
  rewrite S1 in S2. injection S2 as <- <-.
  rewrite E1, E2. do 5 eexists. repeat split.
Qed.

Lemma pi0_actions_ignore_world_witness :
  exists chunk1 chunk2 self' w1' w2',
    Pi0Model.predict sin_approx sample_observation
      (fields_after (Pi0Model.load None "cpu" Pi0Model.init steady_world))
      steady_world = (Ok chunk1, self', w1') /\
    Pi0Model.predict sin_approx sample_observation
      (fields_after (Pi0Model.load None "cpu" Pi0Model.init steady_world))
      (mk_World (fun n => Z.of_nat n) 3 100) = (Ok chunk2, self', w2') /\
    actions chunk1 = actions chunk2 /\
    sequence_number chunk1 = sequence_number chunk2.
Proof.
  exact (pi0_actions_ignore_world sin_approx
           (fields_after (Pi0Model.load None "cpu" Pi0Model.init steady_world))
           sample_observation steady_world (mk_World (fun n => Z.of_nat n) 3 100)
           eq_refl).
Defined.

Lemma pi0_steps_gripper sin (sin_range : forall x, -1 <= sin x <= 1)
    (counter : Z) (base dt : Q) (indices : list nat) :
  forall current acts final,
  Pi0Model.steps_loop sin counter base dt indices current = (acts, final) ->
  Forall (fun a => 0.2 <= gripper_command a <= 0.8) acts.
Proof.
  induction indices as [| i later IH]; intros current acts final E;
    cbn [Pi0Model.steps_loop] in E.
  - injection E as <- <-. constructor.
  - destruct (Pi0Model.steps_loop sin counter base dt later _) as [acts' final'] eqn:E'.
    injection E as <- <-. constructor; [| exact (IH _ _ _ E')].
    cbn [gripper_command].
    match goal with
    | |- _ <= Py.clamp 0 1 (0.5 + 0.3 * sin ?x) <= _ =>
        pose proof (sin_range x);
        destruct (clamp_cases 0 1 (0.5 + 0.3 * sin x)) as [[A B] | [[A B] | [A B]]];
          [lra | | |]; rewrite B; lra
    end.
Qed.

(** X18.  The gripper commands of a pi0 chunk stay within [0.2, 0.8]: the
    clamp to [0, 1] never cuts, the gripper never fully opens or closes. *)
Theorem pi0_gripper_band (sin : Q -> Q)
    (sin_range : forall x, -1 <= sin x <= 1)
    (self : Pi0Model.state) (obs : Observation) (w : World) :
  Pi0Model._loaded self = true ->
  exists chunk self' w',
    Pi0Model.predict sin obs self w = (Ok chunk, self', w') /\
    Forall (fun a => 0.2 <= gripper_command a <= 0.8) (actions chunk).
Proof.
  intros L. destruct (pi0_predict_loaded sin self obs w L)
    as (acts & current & conf & time & w' & E1 & E).
  rewrite E. do 3 eexists. split; [reflexivity|]. cbn [actions].
  exact (pi0_steps_gripper sin sin_range _ _ _ _ _ _ _ E1).
Qed.

Lemma pi0_gripper_band_witness :
  exists chunk self' w',
    Pi0Model.predict sin_approx sample_observation
      (fields_after (Pi0Model.load None "cpu" Pi0Model.init steady_world))
      steady_world = (Ok chunk, self', w') /\
    Forall (fun a => 0.2 <= gripper_command a <= 0.8) (actions chunk).
Proof.
  exact (pi0_gripper_band sin_approx sin_approx_range
           (fields_after (Pi0Model.load None "cpu" Pi0Model.init steady_world))
           sample_observation steady_world eq_refl).
Defined.

(** X19.  The target of the OpenVLA stub is chosen by the first keyword
    group found in the lower-cased instruction, in the order pick/grab,
    place/put, move, and is the zero pose when none is found; each entry is
    the pose's entry give or take 0.1, so every target lies within
    [-0.5, 0.6], inside the joint range. *)
Theorem openvla_target_by_keyword (obs : Observation) (w : World) :
  let text := Py.lower (language_instruction obs) in
  let target := fst (OpenVLAModel._generate_target obs w) in
  let near (pose : list Q) := Forall2 (fun b t => b - 0.1 <= t <= b + 0.1) pose target in
  (Py.str_in "pick" text = true \/ Py.str_in "grab" text = true ->
     near [0.3; 0.2; -0.4; 0.0; 0.5; 0.0]) /\
  (Py.str_in "pick" text = false -> Py.str_in "grab" text = false ->
   Py.str_in "place" text = true \/ Py.str_in "put" text = true ->
     near [0.2; 0.3; 0.1; 0.0; 0.2; 0.0]) /\
  (Py.str_in "pick" text = false -> Py.str_in "grab" text = false ->
   Py.str_in "place" text = false -> Py.str_in "put" text = false ->
   Py.str_in "move" text = true ->
     near [0.1; 0.1; 0.0; 0.0; 0.0; 0.0]) /\
  (Py.str_in "pick" text = false -> Py.str_in "grab" text = false ->
   Py.str_in "place" text = false -> Py.str_in "put" text = false ->
   Py.str_in "move" text = false ->
     near [0.0; 0.0; 0.0; 0.0; 0.0; 0.0]) /\
  Forall (fun t => -0.5 <= t <= 0.6) target.
Proof.
  cbv zeta. unfold OpenVLAModel._generate_target.
  destruct (OpenVLAModel.perturb _ w) as [target w'] eqn:P. cbn [fst].
  apply perturb_spec in P. unfold OpenVLAModel.target_base in P.
  split; [| split; [| split; [| split]]].
  - intros [H | H]; rewrite H in P; [| rewrite orb_true_r in P]; exact P.
  - intros H1 H2 [H | H]; rewrite H1, H2, H in P; cbn [orb] in P;
      [| rewrite orb_true_r in P]; exact P.
  - intros H1 H2 H3 H4 H5. rewrite H1, H2, H3, H4, H5 in P. exact P.
  - intros H1 H2 H3 H4 H5. rewrite H1, H2, H3, H4, H5 in P. exact P.
  - revert P.
    repeat match goal with |- context [if ?c then _ else _] => destruct c end;
      intros P; cbn [repeat] in P;
      repeat match goal with
             | H : Forall2 _ (_ :: _) _ |- _ => inversion H; clear H; subst
             | H : Forall2 _ [] _ |- _ => inversion H; clear H; subst
             end;
      repeat (apply Forall_cons; [lra|]); apply Forall_nil.
Qed.

Lemma openvla_target_by_keyword_witness :
  Forall2 (fun b t => b - 0.1 <= t <= b + 0.1) [0.3; 0.2; -0.4; 0.0; 0.5; 0.0]
    (fst (OpenVLAModel._generate_target
            {| camera_image := "";
               joint_positions := [];
               joint_velocities := [];
               language_instruction := "Grab it and PLACE it, then move";
               timestamp := 0;
               embodiment_tag := "ur5";
               session_id := None |} steady_world)).
Proof.
  apply (proj1 (openvla_target_by_keyword _ steady_world)). right. reflexivity.
Defined.
